(** * codecrafters-docker-go: a shallow embedding of [app/main.go]

    The program pulls an image from Docker Hub, unpacks its layers into a
    temporary directory, chroots into it, unshares the UTS/PID/mount
    namespaces and runs a command, forwarding its exit code.

    Everything the program does is a call into the Go runtime or the
    operating system.  The embedding keeps the control flow of [main.go]
    and makes every such call an observable event: a run of a function is
    the list of calls it made, each with the answer it received, plus the
    way the function ended (normal return, [os.Exit], panic).  The answers
    come from a [World], about which nothing is assumed. *)

From Stdlib Require Import List String Ascii ZArith Bool Arith Lia.
Import ListNotations.

Local Open Scope string_scope.
Local Open Scope list_scope.

(** ** Go strings *)

Module GoString.

(** The newline byte of ["\n"]. *)
Definition nl : string := String (ascii_of_nat 10) EmptyString.

(** [len(s)] in bytes. *)
Definition len (s : string) : nat := String.length s.

(** [s[n:]]: the bytes from offset [n] on. Only defined for [n <= len s];
    the caller turns the other case into a run-time panic. *)
Fixpoint drop (n : nat) (s : string) : string :=
  match n, s with
  | O, _ => s
  | S _, EmptyString => EmptyString
  | S k, String _ s' => drop k s'
  end.

(** Whether byte [c] occurs in [s]. *)
Fixpoint contains_byte (c : ascii) (s : string) : bool :=
  match s with
  | EmptyString => false
  | String a s' => Ascii.eqb a c || contains_byte c s'
  end.

(** Push one byte in front of the first field of a split. *)
Definition cons_field (c : ascii) (fields : list string) : list string :=
  match fields with
  | [] => [String c EmptyString]
  | f :: fs => String c f :: fs
  end.

(** [strings.Split(s, sep)] for a non-empty separator.  [skip] counts the
    bytes of a separator occurrence that are still to be passed over. *)
Fixpoint split_from (sep : string) (skip : nat) (s : string) : list string :=
  match s with
  | EmptyString => [EmptyString]
  | String c s' =>
      match skip with
      | S k => split_from sep k s'
      | O =>
          if String.prefix sep s
          then EmptyString :: split_from sep (String.length sep - 1) s'
          else cons_field c (split_from sep 0 s')
      end
  end.

Definition Split (s sep : string) : list string := split_from sep 0 s.

(** [fmt.Sprintf] restricted to the verbs the program uses, [%s] and [%v],
    applied to string operands. *)
Fixpoint Sprintf (format : string) (args : list string) : string :=
  match format with
  | EmptyString => EmptyString
  | String c rest =>
      match rest with
      | String v rest' =>
          if Ascii.eqb c "%" && (Ascii.eqb v "s" || Ascii.eqb v "v")
          then match args with
               | a :: args' => a ++ Sprintf rest' args'
               | [] => "%!" ++ String v "(MISSING)" ++ Sprintf rest' []
               end
          else String c (Sprintf rest args)
      | EmptyString => String c EmptyString
      end
  end.

End GoString.

(** ** Image references *)

(** [parseImage]: split at [":"]; one field means no tag was given. *)
Definition parseImage (image : string) : string * string :=
  let imageParts := GoString.Split image ":" in
  match imageParts with
  | [] => (EmptyString, EmptyString)          (* Split never returns this *)
  | [name] => (name, "latest")
  | name :: tag :: _ => (name, tag)
  end.

(** ** Values exchanged with the runtime *)

(** A Go [error], kept as the text its [Error()] method prints. *)
Definition error : Type := string.

(** A [(value, error)] return. *)
Inductive result (A : Type) : Type :=
| Ok (a : A)
| Err (err : error).
Arguments Ok {A} a.
Arguments Err {A} err.

(** [resp.Body]: a stream that has not been read yet. *)
Inductive ReadCloser : Type := Stream (id : nat).

Record Response : Type := mkResponse {
  StatusCode : Z;
  Status : string;
  Body : ReadCloser
}.

Record Request : Type := mkRequest {
  Method : string;
  URL : string;
  Header : list (string * string)
}.

(** [req.Header.Set(key, value)]: the new value replaces the old ones. *)
Definition Header_Set (key value : string) (req : Request) : Request :=
  {| Method := Method req;
     URL := URL req;
     Header := (key, value)
               :: filter (fun kv => negb (String.eqb (fst kv) key)) (Header req) |}.

Module Descriptor.
Record t : Type := mk {
  MediaType : string;
  Size : Z;
  Digest : string
}.
End Descriptor.

Module ManifestResponse.
Record t : Type := mk {
  SchemaVersion : Z;
  MediaType : string;
  Config : Descriptor.t;
  Layers : list Descriptor.t
}.
End ManifestResponse.

Record TokenResponse : Type := mkTokenResponse {
  Token : string;
  AccessToken : string;
  ExpiresIn : Z;
  IssuedAt : string
}.

(** [*os.File]: the name it was opened with and its descriptor. *)
Record File : Type := mkFile {
  Name : string;
  Fd : Z
}.

Inductive StdStream : Type := os_Stdin | os_Stdout | os_Stderr.

(** [*exec.Cmd] as far as the program fills it in; [None] is a nil stream. *)
Record Cmd : Type := mkCmd {
  Path : string;
  Args : list string;
  Stdin : option StdStream;
  Stdout : option StdStream;
  Stderr : option StdStream
}.

(** The three ways [cmd.Run()] comes back: [nil] (the child ran and exited
    with 0), an [*exec.ExitError] (the child ran and did not exit with 0),
    any other error (the child was not run). *)
Inductive RunResult : Type :=
| RunNil
| RunExitError (ExitCode : Z) (msg : string)
| RunOtherError (err : error).

Definition run_failed (r : RunResult) : option error :=
  match r with
  | RunNil => None
  | RunExitError _ msg => Some msg
  | RunOtherError err => Some err
  end.

(** ** Events, worlds, outcomes *)

(** One call whose answer the program does not determine itself, with the
    answer it got. *)
Inductive Event : Type :=
| EvMkdirTemp (dir pattern : string) (r : result string)
| EvGet (url : string) (r : result Response)
| EvNewRequest (method url : string) (r : option error)
| EvDo (req : Request) (r : result Response)
| EvDecode (body : ReadCloser) (r : result TokenResponse)
| EvReadAll (body : ReadCloser) (r : result string)
| EvUnmarshal (bytes : string) (r : result ManifestResponse.t)
| EvBodyClose (body : ReadCloser)
| EvCreate (name : string) (r : result Z)
| EvCopy (dst : File) (src : ReadCloser) (r : result Z)
| EvFileClose (f : File)
| EvRun (cmd : Cmd) (r : RunResult)
| EvChroot (path : string) (r : option error)
| EvUnshare (flags : Z) (r : option error)
| EvRemoveAll (path : string)
| EvPrint (s : string).

Definition Trace : Type := list Event.

(** What is outside the program.  Each answer may depend on everything that
    happened before (the first argument), so a world can be stateful;
    [http.NewRequest] and [json.Unmarshal] touch nothing and only see their
    arguments. *)
Record World : Type := mkWorld {
  w_MkdirTemp : Trace -> string -> string -> result string;
  w_Get : Trace -> string -> result Response;
  w_NewRequest : string -> string -> option error;
  w_Do : Trace -> Request -> result Response;
  w_Decode : Trace -> ReadCloser -> result TokenResponse;
  w_ReadAll : Trace -> ReadCloser -> result string;
  w_Unmarshal : string -> result ManifestResponse.t;
  w_Create : Trace -> string -> result Z;
  w_Copy : Trace -> File -> ReadCloser -> result Z;
  w_Run : Trace -> Cmd -> RunResult;
  w_Chroot : Trace -> string -> option error;
  w_Unshare : Trace -> Z -> option error
}.

Inductive Panic : Type :=
| IndexOutOfRange (index length : nat)
| SliceBoundsOutOfRange (low length : nat).

(** How a function ends. [os.Exit] stops the process at once; a panic
    unwinds the stack and runs the deferred calls on its way. *)
Inductive Outcome (A : Type) : Type :=
| Done (a : A)
| Exited (code : Z)
| Panicked (p : Panic).
Arguments Done {A} a.
Arguments Exited {A} code.
Arguments Panicked {A} p.

(** A computation reads the world and the history so far, and yields the
    events it adds and its outcome. *)
Definition M (A : Type) : Type := World -> Trace -> Trace * Outcome A.

Definition ret {A} (a : A) : M A := fun _ _ => ([], Done a).

Definition bind {A B} (m : M A) (f : A -> M B) : M B :=
  fun w h =>
    let (t1, o) := m w h in
    match o with
    | Done a => let (t2, o2) := f a w (h ++ t1) in (t1 ++ t2, o2)
    | Exited code => (t1, Exited code)
    | Panicked p => (t1, Panicked p)
    end.

Declare Scope go_scope.
Delimit Scope go_scope with go.
Notation "x <- m ;; k" := (bind m (fun x => k))
  (at level 61, m at next level, right associativity) : go_scope.
Notation "m ;; k" := (bind m (fun _ => k))
  (at level 61, right associativity) : go_scope.
Local Open Scope go_scope.

(** [os.Exit(code)]. *)
Definition os_Exit {A} (code : Z) : M A := fun _ _ => ([], Exited code).

Definition panic {A} (p : Panic) : M A := fun _ _ => ([], Panicked p).

(** [defer d; body]: [d] runs when [body] returns or panics, not when the
    process exits inside [body]. *)
Definition defer {A} (d : M unit) (body : M A) : M A :=
  fun w h =>
    let (t1, o) := body w h in
    match o with
    | Exited code => (t1, Exited code)
    | _ =>
        let (t2, o2) := d w (h ++ t1) in
        (t1 ++ t2,
         match o2 with
         | Done _ => o
         | Exited code => Exited code
         | Panicked p => Panicked p
         end)
    end.

(** The exit status the parent of the process sees: 0 when [main] returns,
    the low eight bits of the argument of [os.Exit], 2 after a panic. *)
Definition exit_status (o : Outcome unit) : Z :=
  match o with
  | Done _ => 0%Z
  | Exited code => Z.land code 255
  | Panicked _ => 2%Z
  end.

(** ** The calls the program makes *)

Definition os_MkdirTemp (dir pattern : string) : M (result string) :=
  fun w h => let r := w_MkdirTemp w h dir pattern in
             ([EvMkdirTemp dir pattern r], Done r).

Definition httpClient_Get (url : string) : M (result Response) :=
  fun w h => let r := w_Get w h url in ([EvGet url r], Done r).

Definition http_NewRequest (method url : string) : M (result Request) :=
  fun w _ =>
    let r := w_NewRequest w method url in
    ([EvNewRequest method url r],
     Done match r with
          | Some err => Err err
          | None => Ok {| Method := method; URL := url; Header := [] |}
          end).

Definition httpClient_Do (req : Request) : M (result Response) :=
  fun w h => let r := w_Do w h req in ([EvDo req r], Done r).

Definition json_Decode (body : ReadCloser) : M (result TokenResponse) :=
  fun w h => let r := w_Decode w h body in ([EvDecode body r], Done r).

Definition io_ReadAll (body : ReadCloser) : M (result string) :=
  fun w h => let r := w_ReadAll w h body in ([EvReadAll body r], Done r).

Definition json_Unmarshal (bytes : string) : M (result ManifestResponse.t) :=
  fun w _ => let r := w_Unmarshal w bytes in ([EvUnmarshal bytes r], Done r).

Definition Body_Close (body : ReadCloser) : M unit :=
  fun _ _ => ([EvBodyClose body], Done tt).

Definition os_Create (name : string) : M (result File) :=
  fun w h =>
    let r := w_Create w h name in
    ([EvCreate name r],
     Done match r with
          | Ok fd => Ok {| Name := name; Fd := fd |}
          | Err err => Err err
          end).

Definition io_Copy (dst : File) (src : ReadCloser) : M (result Z) :=
  fun w h => let r := w_Copy w h dst src in ([EvCopy dst src r], Done r).

Definition File_Close (f : File) : M unit :=
  fun _ _ => ([EvFileClose f], Done tt).

Definition cmd_Run (cmd : Cmd) : M RunResult :=
  fun w h => let r := w_Run w h cmd in ([EvRun cmd r], Done r).

Definition syscall_Chroot (path : string) : M (option error) :=
  fun w h => let r := w_Chroot w h path in ([EvChroot path r], Done r).

Definition syscall_Unshare (flags : Z) : M (option error) :=
  fun w h => let r := w_Unshare w h flags in ([EvUnshare flags r], Done r).

Definition os_RemoveAll (path : string) : M unit :=
  fun _ _ => ([EvRemoveAll path], Done tt).

(** [fmt.Printf(format, operands...)]. *)
Definition fmt_Printf (format : string) (args : list string) : M unit :=
  fun _ _ => ([EvPrint (GoString.Sprintf format args)], Done tt).

(** [fmt.Println(a, b)]: operands separated by a space, newline at the end. *)
Definition fmt_Println2 (a b : string) : M unit :=
  fun _ _ => ([EvPrint (a ++ " " ++ b ++ GoString.nl)], Done tt).

(** [s[low:]], which panics when [low] is beyond the end of [s]. *)
Definition slice_from (s : string) (low : nat) : M string :=
  if (low <=? GoString.len s)%nat
  then ret (GoString.drop low s)
  else panic (SliceBoundsOutOfRange low (GoString.len s)).

(** ** Constants of [main.go] *)

Definition getTokenURL : string :=
  "https://auth.docker.io/token?service=registry.docker.io&scope=repository:%s:pull".
Definition getManifestURL : string :=
  "https://registry.hub.docker.com/v2/library/%s/manifests/%s".
Definition getLayerURL : string :=
  "https://registry.hub.docker.com/v2/library/%s/blobs/%s".
Definition contentTypeHeader : string :=
  "application/vnd.docker.distribution.manifest.v2+json".

Definition http_StatusOK : Z := 200%Z.

Definition CLONE_NEWNS : Z := 0x00020000%Z.
Definition CLONE_NEWUTS : Z := 0x04000000%Z.
Definition CLONE_NEWPID : Z := 0x20000000%Z.

(** ** Registry client *)

Definition getToken (image : string) : M (result string) :=
  r <- httpClient_Get (GoString.Sprintf getTokenURL [image]) ;;
  match r with
  | Err err => ret (Err err)
  | Ok resp =>
      if negb (StatusCode resp =? http_StatusOK)%Z
      then ret (Err (GoString.Sprintf "Error getting token: %v" [Status resp]))
      else
        defer (Body_Close (Body resp))
          (r <- json_Decode (Body resp) ;;
           match r with
           | Err err => ret (Err err)
           | Ok tokenResponse => ret (Ok (Token tokenResponse))
           end)
  end.

Definition getManifest (token image tag : string)
  : M (result ManifestResponse.t) :=
  r <- http_NewRequest "GET" (GoString.Sprintf getManifestURL [image; tag]) ;;
  match r with
  | Err err => ret (Err err)
  | Ok req =>
      let req := Header_Set "Authorization"
                   (GoString.Sprintf "Bearer %s" [token]) req in
      let req := Header_Set "Accept" contentTypeHeader req in
      r <- httpClient_Do req ;;
      match r with
      | Err err => ret (Err err)
      | Ok resp =>
          if negb (StatusCode resp =? http_StatusOK)%Z
          then ret (Err (GoString.Sprintf "Error getting manifest: %v"
                           [Status resp]))
          else
            defer (Body_Close (Body resp))
              (r <- io_ReadAll (Body resp) ;;
               match r with
               | Err err => ret (Err err)
               | Ok bytes =>
                   r <- json_Unmarshal bytes ;;
                   match r with
                   | Err err => ret (Err err)
                   | Ok manifestResponse => ret (Ok manifestResponse)
                   end
               end)
      end
  end.

(** ** Layer download and extraction *)

Definition pullLayer (token image digest : string) : M (result string) :=
  r <- http_NewRequest "GET" (GoString.Sprintf getLayerURL [image; digest]) ;;
  match r with
  | Err err =>
      fmt_Printf ("Error creating request: %v" ++ GoString.nl) [err] ;;
      ret (Err err)
  | Ok req =>
      let req := Header_Set "Authorization"
                   (GoString.Sprintf "Bearer %s" [token]) req in
      r <- httpClient_Do req ;;
      match r with
      | Err err =>
          fmt_Printf ("Error sending request: %v" ++ GoString.nl) [err] ;;
          ret (Err err)
      | Ok resp =>
          if negb (StatusCode resp =? http_StatusOK)%Z
          then
            fmt_Printf ("Error getting layer: %v" ++ GoString.nl)
              [Status resp] ;;
            ret (Err (GoString.Sprintf "Error getting layer: %v"
                        [Status resp]))
          else
            defer (Body_Close (Body resp))
              (stripped <- slice_from digest 7 ;;
               r <- os_Create (GoString.Sprintf "%s.tar.gz" [stripped]) ;;
               match r with
               | Err err =>
                   fmt_Printf ("Error creating file: %v" ++ GoString.nl)
                     [err] ;;
                   ret (Err err)
               | Ok layerFile =>
                   defer (File_Close layerFile)
                     (r <- io_Copy layerFile (Body resp) ;;
                      match r with
                      | Err err =>
                          fmt_Printf
                            ("Error copying file: %v" ++ GoString.nl) [err] ;;
                          ret (Err err)
                      | Ok _ => ret (Ok (Name layerFile))
                      end)
               end)
      end
  end.

Definition tar_Command (src dest : string) : Cmd :=
  {| Path := "tar";
     Args := ["-xzf"; src; "-C"; dest];
     Stdin := None;
     Stdout := Some os_Stdout;
     Stderr := Some os_Stderr |}.

Definition extractTar (src dest : string) : M (option error) :=
  r <- cmd_Run (tar_Command src dest) ;;
  match run_failed r with
  | Some err =>
      fmt_Println2 "Error while applying layer: " err ;;
      os_Exit 1%Z
  | None => ret None
  end.

(** ** Isolation *)

Definition isolateProcess : M (option error) :=
  r <- syscall_Unshare
         (Z.lor (Z.lor CLONE_NEWUTS CLONE_NEWPID) CLONE_NEWNS) ;;
  match r with
  | Some _ => ret (Some "Error unshareing")
  | None => ret None
  end.

Definition isolateFileSystem (tempDir : string) : M (option error) :=
  err <- syscall_Chroot tempDir ;;
  match err with
  | Some e =>
      fmt_Printf ("Error chrooting: %v" ++ GoString.nl) [e] ;;
      ret (Some e)
  | None => ret None
  end.

(** ** [main] *)

(** The first loop of [main]: download every layer, in order. *)
Fixpoint pullLayers (token image : string) (layers : list Descriptor.t)
  (layerNames : list string) : M (list string) :=
  match layers with
  | [] => ret layerNames
  | manifest :: layers' =>
      r <- pullLayer token image (Descriptor.Digest manifest) ;;
      match r with
      | Err err =>
          fmt_Printf ("Error pulling layer: %v" ++ GoString.nl) [err] ;;
          os_Exit 1%Z
      | Ok layerName =>
          pullLayers token image layers' (layerNames ++ [layerName])
      end
  end.

(** The second loop of [main]: unpack every downloaded file, in order. *)
Fixpoint extractLayers (layerNames : list string) (tempDir : string)
  : M unit :=
  match layerNames with
  | [] => ret tt
  | layerName :: layerNames' =>
      err <- extractTar layerName tempDir ;;
      match err with
      | Some e =>
          fmt_Printf ("Error extracting layer: %v" ++ GoString.nl) [e] ;;
          os_Exit 1%Z
      | None => extractLayers layerNames' tempDir
      end
  end.

Definition user_Command (command : string) (args : list string) : Cmd :=
  {| Path := command;
     Args := args;
     Stdin := Some os_Stdin;
     Stdout := Some os_Stdout;
     Stderr := Some os_Stderr |}.

(** What [main] does once the temporary directory exists and its removal
    has been deferred. *)
Definition main_in (tempDir imageName command : string) (args : list string)
  : M unit :=
  let (image, tag) := parseImage imageName in
  r <- getToken (GoString.Sprintf "library/%s" [image]) ;;
  match r with
  | Err err =>
      fmt_Printf ("Error getting token: %v" ++ GoString.nl) [err] ;;
      os_Exit 1%Z
  | Ok token =>
      r <- getManifest token image tag ;;
      match r with
      | Err err =>
          fmt_Printf ("Error getting manifest: %v" ++ GoString.nl) [err] ;;
          os_Exit 1%Z
      | Ok manifest =>
          layerNames <-
            pullLayers token image (ManifestResponse.Layers manifest) [] ;;
          extractLayers layerNames tempDir ;;
          err <- isolateFileSystem tempDir ;;
          match err with
          | Some e =>
              fmt_Printf ("Error isolating file system: %v" ++ GoString.nl)
                [e] ;;
              os_Exit 1%Z
          | None =>
              err <- isolateProcess ;;
              match err with
              | Some e =>
                  fmt_Printf ("Error isolating process: %v" ++ GoString.nl)
                    [e] ;;
                  os_Exit 1%Z
              | None =>
                  r <- cmd_Run (user_Command command args) ;;
                  match r with
                  | RunNil => ret tt
                  | RunExitError ExitCode _ => os_Exit ExitCode
                  | RunOtherError err =>
                      fmt_Printf "Err: %v" [err] ;;
                      os_Exit 1%Z
                  end
              end
          end
      end
  end.

Definition main (os_Args : list string) : M unit :=
  match nth_error os_Args 3 with
  | None => panic (IndexOutOfRange 3 (List.length os_Args))
  | Some command =>
      let args := skipn 4 os_Args in
      match nth_error os_Args 2 with
      | None => panic (IndexOutOfRange 2 (List.length os_Args))
      | Some imageName =>
          r <- os_MkdirTemp "" "my-docker" ;;
          match r with
          | Err err =>
              fmt_Printf
                ("Error creating temporary directory: %v" ++ GoString.nl)
                [err] ;;
              os_Exit 1%Z
          | Ok tempDir =>
              defer (os_RemoveAll tempDir)
                (main_in tempDir imageName command args)
          end
      end
  end.

(** A whole run: [main] started on an empty history. *)
Definition run (w : World) (os_Args : list string) : Trace * Outcome unit :=
  main os_Args w [].

(** ** A scripted world for concrete runs *)

Module Sample.

Definition status_text (code : Z) : string :=
  if (code =? 200)%Z then "200 OK"
  else if (code =? 201)%Z then "201 Created"
  else if (code =? 401)%Z then "401 Unauthorized"
  else if (code =? 404)%Z then "404 Not Found"
  else "500 Internal Server Error".

Definition response (code : Z) (id : nat) : Response :=
  {| StatusCode := code; Status := status_text code; Body := Stream id |}.

Definition is_manifest_url (url : string) : bool :=
  match String.index 0 "/manifests/" url with
  | Some _ => true
  | None => false
  end.

(** The registry of the script: the token endpoint answers [tokenStatus],
    the manifest endpoint serves [manifest], every blob request is answered
    [blobStatus]; [tar] decides each extraction from the archive name and
    [child] is what running the user's command gives.  Nothing else fails. *)
Definition world (tokenStatus : Z) (manifest : ManifestResponse.t)
  (blobStatus : Z) (tar : string -> RunResult) (child : RunResult) : World :=
  {| w_MkdirTemp := fun _ _ _ => Ok "/tmp/my-docker42";
     w_Get := fun _ _ => Ok (response tokenStatus 0);
     w_NewRequest := fun _ _ => None;
     w_Do := fun _ req =>
       if is_manifest_url (URL req) then Ok (response 200 1)
       else Ok (response blobStatus 2);
     w_Decode := fun _ _ =>
       Ok {| Token := "t0k3n"; AccessToken := ""; ExpiresIn := 300;
             IssuedAt := "2024-01-01T00:00:00Z" |};
     w_ReadAll := fun _ _ => Ok "{...}";
     w_Unmarshal := fun _ => Ok manifest;
     w_Create := fun _ _ => Ok 3%Z;
     w_Copy := fun _ _ _ => Ok 1024%Z;
     w_Run := fun _ cmd =>
       match Stdin cmd, Args cmd with
       | None, _ :: src :: _ => tar src
       | _, _ => child
       end;
     w_Chroot := fun _ _ => None;
     w_Unshare := fun _ _ => None |}.

Definition layer (digest : string) : Descriptor.t :=
  {| Descriptor.MediaType := "application/vnd.docker.image.rootfs.diff.tar.gzip";
     Descriptor.Size := 1024;
     Descriptor.Digest := digest |}.

Definition manifest (digests : list string) : ManifestResponse.t :=
  {| ManifestResponse.SchemaVersion := 2;
     ManifestResponse.MediaType := contentTypeHeader;
     ManifestResponse.Config := layer "sha256:c0ffee";
     ManifestResponse.Layers := map layer digests |}.

Definition two_layers : ManifestResponse.t :=
  manifest ["sha256:aaaa"; "sha256:bbbb"].

Definition tar_ok (_ : string) : RunResult := RunNil.

Definition argv : list string :=
  ["your_docker"; "run"; "alpine:latest"; "/bin/sh"; "-c"; "exit 7"].

End Sample.

(** ** Reading a trace *)

(** The archive name [pullLayer] uses for a digest of at least 7 bytes. *)
Definition layer_file (digest : string) : string :=
  (GoString.drop 7 digest ++ ".tar.gz")%string.

(** An extraction is a run of [tar -xzf src -C dest] with no standard
    input, which is how [extractTar] builds it; the user's command always
    has standard input attached. *)
Definition extraction_of (e : Event) : option (string * string) :=
  match e with
  | EvRun cmd _ =>
      match Stdin cmd, Args cmd with
      | None, [x; src; c; dest] =>
          if String.eqb (Path cmd) "tar" && String.eqb x "-xzf"
             && String.eqb c "-C"
          then Some (src, dest)
          else None
      | _, _ => None
      end
  | _ => None
  end.

(** The extractions of a trace, as (archive, destination), in order. *)
Fixpoint extractions (t : Trace) : list (string * string) :=
  match t with
  | [] => []
  | e :: t' =>
      match extraction_of e with
      | Some x => x :: extractions t'
      | None => extractions t'
      end
  end.

(** The names given to [os.Create], in order. *)
Fixpoint created_files (t : Trace) : list string :=
  match t with
  | [] => []
  | EvCreate name _ :: t' => name :: created_files t'
  | _ :: t' => created_files t'
  end.

(** The paths given to [os.RemoveAll], in order. *)
Fixpoint removed_paths (t : Trace) : list string :=
  match t with
  | [] => []
  | EvRemoveAll path :: t' => path :: removed_paths t'
  | _ :: t' => removed_paths t'
  end.

Definition is_chroot (e : Event) : bool :=
  match e with EvChroot _ _ => true | _ => false end.

Definition is_unshare (e : Event) : bool :=
  match e with EvUnshare _ _ => true | _ => false end.

(** Neither a root change nor an unshare. *)
Definition not_isolation (e : Event) : Prop :=
  is_chroot e = false /\ is_unshare e = false.

(** The exit code of the child, when it ran. *)
Definition child_exit_code (r : RunResult) : option Z :=
  match r with
  | RunNil => Some 0%Z
  | RunExitError ExitCode _ => Some ExitCode
  | RunOtherError _ => None
  end.

(** The digest without its hash-algorithm prefix as the specification words
    it: what follows the first colon of [algorithm:hexdigest]. *)
Fixpoint spec_strip_algorithm (digest : string) : string :=
  match digest with
  | EmptyString => EmptyString
  | String c rest =>
      if Ascii.eqb c ":" then rest else spec_strip_algorithm rest
  end.

(** What one iteration of the download loop may add to the trace: requests,
    closes, prints, copies, and files named after a layer of the manifest. *)
Definition pull_event (layers : list Descriptor.t) (e : Event) : Prop :=
  match e with
  | EvNewRequest _ _ _ | EvDo _ _ | EvBodyClose _ | EvCopy _ _ _
  | EvFileClose _ | EvPrint _ => True
  | EvCreate name _ =>
      exists l, In l layers /\ 7 <= GoString.len (Descriptor.Digest l) /\
                name = layer_file (Descriptor.Digest l)
  | _ => False
  end.

(** ** The runs of [main], case by case

    [MainRun os_Args t o] lists the ways a run of [main] can go, one
    constructor per place where it can stop.  It is not the definition of
    the program: [run_MainRun] below derives it from [run]. *)

(** Events of the token and manifest phase, a successful [json.Unmarshal]
    excepted: that one ends the phase. *)
Definition registry_event (e : Event) : Prop :=
  match e with
  | EvGet _ _ | EvDecode _ _ | EvBodyClose _ | EvNewRequest _ _ _
  | EvDo _ _ | EvReadAll _ _ | EvPrint _ | EvUnmarshal _ (Err _) => True
  | _ => False
  end.

Definition layer_files (m : ManifestResponse.t) : list string :=
  map (fun l => layer_file (Descriptor.Digest l)) (ManifestResponse.Layers m).

Definition tar_ok_events (names : list string) (dest : string) : Trace :=
  map (fun n => EvRun (tar_Command n dest) RunNil) names.

(** Layer [l] was written to its archive in [pull]. *)
Definition downloaded (pull : Trace) (l : Descriptor.t) : Prop :=
  7 <= GoString.len (Descriptor.Digest l) /\
  exists fd body n,
    In (EvCreate (layer_file (Descriptor.Digest l)) (Ok fd)) pull /\
    In (EvCopy {| Name := layer_file (Descriptor.Digest l); Fd := fd |}
          body (Ok n)) pull.

Definition unshare_flags : Z :=
  Z.lor (Z.lor CLONE_NEWUTS CLONE_NEWPID) CLONE_NEWNS.

(** The trace up to the end of the download loop. *)
Definition stem (tempDir : string) (reg : Trace) (bytes : string)
  (m : ManifestResponse.t) (body : ReadCloser) (pull : Trace) : Trace :=
  EvMkdirTemp "" "my-docker" (Ok tempDir)
  :: reg ++ EvUnmarshal bytes (Ok m) :: EvBodyClose body :: pull.

(** What follows the user's command, and how the run ends. *)
Definition after_command (tempDir : string) (r : RunResult)
  : Trace * Outcome unit :=
  match r with
  | RunNil => ([EvRemoveAll tempDir], Done tt)
  | RunExitError ExitCode _ => ([], Exited ExitCode)
  | RunOtherError err =>
      ([EvPrint (GoString.Sprintf "Err: %v" [err])], Exited 1%Z)
  end.

Inductive MainRun (os_Args : list string) : Trace -> Outcome unit -> Prop :=
| RunNoArgs :
    nth_error os_Args 3 = None ->
    MainRun os_Args [] (Panicked (IndexOutOfRange 3 (List.length os_Args)))
| RunNoTempDir err msg :
    MainRun os_Args [EvMkdirTemp "" "my-docker" (Err err); EvPrint msg]
      (Exited 1%Z)
| RunRegistryFails tempDir reg :
    Forall registry_event reg ->
    MainRun os_Args (EvMkdirTemp "" "my-docker" (Ok tempDir) :: reg)
      (Exited 1%Z)
| RunPullFails tempDir reg bytes m body pull :
    Forall registry_event reg ->
    Forall (pull_event (ManifestResponse.Layers m)) pull ->
    MainRun os_Args (stem tempDir reg bytes m body pull) (Exited 1%Z)
| RunPullPanics tempDir reg bytes m body pull l :
    Forall registry_event reg ->
    Forall (pull_event (ManifestResponse.Layers m)) pull ->
    In l (ManifestResponse.Layers m) ->
    GoString.len (Descriptor.Digest l) < 7 ->
    MainRun os_Args
      (stem tempDir reg bytes m body (pull ++ [EvRemoveAll tempDir]))
      (Panicked (SliceBoundsOutOfRange 7 (GoString.len (Descriptor.Digest l))))
| RunExtractFails tempDir reg bytes m body pull done failed rest r err msg :
    Forall registry_event reg ->
    Forall (pull_event (ManifestResponse.Layers m)) pull ->
    (forall l, In l (ManifestResponse.Layers m) -> downloaded pull l) ->
    layer_files m = done ++ failed :: rest ->
    run_failed r = Some err ->
    MainRun os_Args
      (stem tempDir reg bytes m body
         (pull ++ tar_ok_events done tempDir
          ++ [EvRun (tar_Command failed tempDir) r; EvPrint msg]))
      (Exited 1%Z)
| RunChrootFails tempDir reg bytes m body pull err msg msg' :
    Forall registry_event reg ->
    Forall (pull_event (ManifestResponse.Layers m)) pull ->
    (forall l, In l (ManifestResponse.Layers m) -> downloaded pull l) ->
    MainRun os_Args
      (stem tempDir reg bytes m body
         (pull ++ tar_ok_events (layer_files m) tempDir
          ++ [EvChroot tempDir (Some err); EvPrint msg; EvPrint msg']))
      (Exited 1%Z)
| RunUnshareFails tempDir reg bytes m body pull err msg :
    Forall registry_event reg ->
    Forall (pull_event (ManifestResponse.Layers m)) pull ->
    (forall l, In l (ManifestResponse.Layers m) -> downloaded pull l) ->
    MainRun os_Args
      (stem tempDir reg bytes m body
         (pull ++ tar_ok_events (layer_files m) tempDir
          ++ [EvChroot tempDir None; EvUnshare unshare_flags (Some err);
              EvPrint msg]))
      (Exited 1%Z)
| RunCommand tempDir reg bytes m body pull command r :
    Forall registry_event reg ->
    Forall (pull_event (ManifestResponse.Layers m)) pull ->
    (forall l, In l (ManifestResponse.Layers m) -> downloaded pull l) ->
    nth_error os_Args 3 = Some command ->
    MainRun os_Args
      (stem tempDir reg bytes m body
         (pull ++ tar_ok_events (layer_files m) tempDir
          ++ EvChroot tempDir None :: EvUnshare unshare_flags None
          :: EvRun (user_Command command (skipn 4 os_Args)) r
          :: fst (after_command tempDir r)))
      (snd (after_command tempDir r)).

(** A request sent to the registry. *)
Definition is_request (e : Event) : bool :=
  match e with EvDo _ _ => true | _ => false end.


(** A run of a command that has a standard input: the user's command. *)
Definition is_command (e : Event) : bool :=
  match e with
  | EvRun cmd _ => match Stdin cmd with Some _ => true | None => false end
  | _ => false
  end.

(** A call of [os.RemoveAll]. *)
Definition is_removal (e : Event) : bool :=
  match e with EvRemoveAll _ => true | _ => false end.

(** ** The URLs of the registry, written out *)

Definition token_url (image : string) : string :=
  ("https://auth.docker.io/token?service=registry.docker.io&scope=repository:"
   ++ image ++ ":pull")%string.

Definition manifest_url (image tag : string) : string :=
  ("https://registry.hub.docker.com/v2/library/" ++ image ++ "/manifests/"
   ++ tag)%string.

Definition blob_url (image digest : string) : string :=
  ("https://registry.hub.docker.com/v2/library/" ++ image ++ "/blobs/"
   ++ digest)%string.

(** What the download loop may send: a GET of the blob of a layer of the
    manifest, authorized with the token. *)
Definition blob_request (token image : string) (layers : list Descriptor.t)
  (e : Event) : Prop :=
  match e with
  | EvDo req _ =>
      exists l, In l layers /\
                req = {| Method := "GET";
                         URL := blob_url image (Descriptor.Digest l);
                         Header := [("Authorization",
                                     ("Bearer " ++ token)%string)] |}
  | _ => True
  end.

(** A step of a download or of an extraction that failed: a request that
    could not be built or sent, or was not answered with status 200; a file
    that could not be created or filled; a run of a command without
    standard input, as [tar] is run, that did not return nil. *)
Definition step_failed (e : Event) : bool :=
  match e with
  | EvNewRequest _ _ (Some _) => true
  | EvDo _ (Err _) => true
  | EvDo _ (Ok resp) => negb (StatusCode resp =? http_StatusOK)%Z
  | EvCreate _ (Err _) => true
  | EvCopy _ _ (Err _) => true
  | EvRun cmd r =>
      match Stdin cmd, r with
      | None, RunNil => false
      | None, _ => true
      | Some _, _ => false
      end
  | _ => false
  end.

(** Layer [l] of [image] was written to its archive in [t]: its blob was
    requested and the request answered with status 200, the file named
    after its digest was created, and the body of that answer was copied
    into that file. *)
Definition written (image : string) (t : Trace) (l : Descriptor.t) : Prop :=
  exists req resp fd n,
    In (EvDo req (Ok resp)) t /\
    URL req = blob_url image (Descriptor.Digest l) /\
    StatusCode resp = 200%Z /\
    In (EvCreate (layer_file (Descriptor.Digest l)) (Ok fd)) t /\
    In (EvCopy {| Name := layer_file (Descriptor.Digest l); Fd := fd |}
          (Body resp) (Ok n)) t.

(** What a blob request answered with status 200 leads to in [t]: it is
    the request for a layer of [layers], and when the digest of that layer
    has at least 7 bytes the file named after it is created, and the body
    of the answer copied into the file when that could be created. *)
Definition blob_written (image : string) (layers : list Descriptor.t)
  (t : Trace) (e : Event) : Prop :=
  match e with
  | EvDo req (Ok resp) =>
      StatusCode resp = 200%Z ->
      exists l,
        In l layers /\
        URL req = blob_url image (Descriptor.Digest l) /\
        (7 <= GoString.len (Descriptor.Digest l) ->
         exists r,
           In (EvCreate (layer_file (Descriptor.Digest l)) r) t /\
           forall fd,
             r = Ok fd ->
             exists c,
               In (EvCopy {| Name := layer_file (Descriptor.Digest l);
                             Fd := fd |} (Body resp) c) t)
  | _ => True
  end.

(** * The earlier stage: running a binary of the host *)

(** [src/unnamed/part_000] is the program of an earlier stage: it copies the
    binary of the command into a fresh directory, changes root to it and
    runs the command there.  [isolateFileSystemWithBinary] of [main.go] is
    what the final stage kept of it.  Both call the operating system in
    ways [main] of [main.go] does not, so they have events and a world of
    their own; commands, files, results and outcomes are shared. *)
Module Stage.

Inductive Event : Type :=
| EvTempDir (dir pattern : string) (r : result string)
| EvMkdirAll (path : string) (perm : Z) (r : option error)
| EvOpen (name : string) (r : result Z)
| EvCreate (name : string) (r : result Z)
| EvChmod (f : File) (mode : Z) (r : option error)
| EvCopy (dst src : File) (r : result Z)
| EvFileClose (f : File)
| EvChroot (path : string) (r : option error)
| EvRemoveAll (path : string)
| EvRun (cmd : Cmd) (r : RunResult)
| EvPrint (s : string).

Definition Trace : Type := list Event.

(** The answers of the operating system, each of which may depend on the
    history, and the two functions of [path/filepath] the code uses, which
    compute on their arguments alone and are left uninterpreted. *)
Record World : Type := mkWorld {
  w_Join : string -> string -> string;
  w_Dir : string -> string;
  w_TempDir : Trace -> string -> string -> result string;
  w_MkdirAll : Trace -> string -> Z -> option error;
  w_Open : Trace -> string -> result Z;
  w_Create : Trace -> string -> result Z;
  w_Chmod : Trace -> File -> Z -> option error;
  w_Copy : Trace -> File -> File -> result Z;
  w_Chroot : Trace -> string -> option error;
  w_Run : Trace -> Cmd -> RunResult
}.

Definition M (A : Type) : Type := World -> Trace -> Trace * Outcome A.

Definition ret {A} (a : A) : M A := fun _ _ => ([], Done a).

Definition bind {A B} (m : M A) (f : A -> M B) : M B :=
  fun w h =>
    let (t1, o) := m w h in
    match o with
    | Done a => let (t2, o2) := f a w (h ++ t1) in (t1 ++ t2, o2)
    | Exited code => (t1, Exited code)
    | Panicked p => (t1, Panicked p)
    end.

Declare Scope stage_scope.
Delimit Scope stage_scope with stage.
Notation "x <- m ;; k" := (bind m (fun x => k))
  (at level 61, m at next level, right associativity) : stage_scope.
Notation "m ;; k" := (bind m (fun _ => k))
  (at level 61, right associativity) : stage_scope.
Local Open Scope stage_scope.

Definition os_Exit {A} (code : Z) : M A := fun _ _ => ([], Exited code).

Definition panic {A} (p : Panic) : M A := fun _ _ => ([], Panicked p).

(** [defer d; body], as in [main.go]: [d] runs when [body] returns or
    panics, not when the process exits inside [body]. *)
Definition defer {A} (d : M unit) (body : M A) : M A :=
  fun w h =>
    let (t1, o) := body w h in
    match o with
    | Exited code => (t1, Exited code)
    | _ =>
        let (t2, o2) := d w (h ++ t1) in
        (t1 ++ t2,
         match o2 with
         | Done _ => o
         | Exited code => Exited code
         | Panicked p => Panicked p
         end)
    end.

(** ** The calls the stage makes *)

Definition filepath_Join (a b : string) : M string :=
  fun w _ => ([], Done (w_Join w a b)).

Definition filepath_Dir (path : string) : M string :=
  fun w _ => ([], Done (w_Dir w path)).

Definition ioutil_TempDir (dir pattern : string) : M (result string) :=
  fun w h => let r := w_TempDir w h dir pattern in
             ([EvTempDir dir pattern r], Done r).

Definition os_MkdirAll (path : string) (perm : Z) : M (option error) :=
  fun w h => let r := w_MkdirAll w h path perm in
             ([EvMkdirAll path perm r], Done r).

Definition os_Open (name : string) : M (result File) :=
  fun w h =>
    let r := w_Open w h name in
    ([EvOpen name r],
     Done match r with
          | Ok fd => Ok {| Name := name; Fd := fd |}
          | Err err => Err err
          end).

Definition os_Create (name : string) : M (result File) :=
  fun w h =>
    let r := w_Create w h name in
    ([EvCreate name r],
     Done match r with
          | Ok fd => Ok {| Name := name; Fd := fd |}
          | Err err => Err err
          end).

Definition File_Chmod (f : File) (mode : Z) : M (option error) :=
  fun w h => let r := w_Chmod w h f mode in ([EvChmod f mode r], Done r).

Definition io_Copy (dst src : File) : M (result Z) :=
  fun w h => let r := w_Copy w h dst src in ([EvCopy dst src r], Done r).

Definition File_Close (f : File) : M unit :=
  fun _ _ => ([EvFileClose f], Done tt).

Definition syscall_Chroot (path : string) : M (option error) :=
  fun w h => let r := w_Chroot w h path in ([EvChroot path r], Done r).

Definition os_RemoveAll (path : string) : M unit :=
  fun _ _ => ([EvRemoveAll path], Done tt).

Definition cmd_Run (cmd : Cmd) : M RunResult :=
  fun w h => let r := w_Run w h cmd in ([EvRun cmd r], Done r).

Definition fmt_Printf (format : string) (args : list string) : M unit :=
  fun _ _ => ([EvPrint (GoString.Sprintf format args)], Done tt).

(** The octal literals [0600] and [0100]. *)
Definition perm_0600 : Z := (6 * 8 * 8)%Z.
Definition perm_0100 : Z := (1 * 8 * 8)%Z.

(** ** [isolateFileSystemWithBinary] of [main.go] *)

Definition isolateFileSystemWithBinary (tempDir binaryPath : string)
  : M (option error) :=
  destinationPath <- filepath_Join tempDir binaryPath ;;
  dir <- filepath_Dir destinationPath ;;
  err <- os_MkdirAll dir perm_0600 ;;
  match err with
  | Some e =>
      fmt_Printf ("Error creating directory: %v" ++ GoString.nl) [e] ;;
      ret (Some e)
  | None =>
      r <- os_Open binaryPath ;;
      match r with
      | Err e =>
          fmt_Printf ("Error opening binary: %v" ++ GoString.nl) [e] ;;
          ret (Some e)
      | Ok binarySrc =>
          defer (File_Close binarySrc)
            (r <- os_Create destinationPath ;;
             match r with
             | Err e =>
                 fmt_Printf ("Error creating binary: %v" ++ GoString.nl)
                   [e] ;;
                 ret (Some e)
             | Ok binaryDest =>
                 defer (File_Close binaryDest)
                   (err <- File_Chmod binaryDest perm_0100 ;;
                    match err with
                    | Some e =>
                        fmt_Printf
                          ("Error setting permissions: %v" ++ GoString.nl)
                          [e] ;;
                        ret (Some e)
                    | None =>
                        r <- io_Copy binaryDest binarySrc ;;
                        match r with
                        | Err e =>
                            fmt_Printf
                              ("Error copying binary: %v" ++ GoString.nl)
                              [e] ;;
                            ret (Some e)
                        | Ok _ =>
                            err <- syscall_Chroot tempDir ;;
                            match err with
                            | Some e =>
                                fmt_Printf
                                  ("Error chrooting: %v" ++ GoString.nl)
                                  [e] ;;
                                ret (Some e)
                            | None => ret None
                            end
                        end
                    end)
             end)
      end
  end.

(** ** [part_000] *)

Definition isolateFileSystem (binaryPath : string) : M (option error) :=
  r <- ioutil_TempDir "" "my-docker" ;;
  match r with
  | Err e =>
      fmt_Printf ("Error creating temporary directory: %v" ++ GoString.nl)
        [e] ;;
      ret (Some e)
  | Ok tempDir =>
      defer (os_RemoveAll tempDir)
        (destinationPath <- filepath_Join tempDir binaryPath ;;
         dir <- filepath_Dir destinationPath ;;
         err <- os_MkdirAll dir perm_0600 ;;
         match err with
         | Some e =>
             fmt_Printf ("Error creating directory: %v" ++ GoString.nl) [e] ;;
             ret (Some e)
         | None =>
             r <- os_Open binaryPath ;;
             match r with
             | Err e =>
                 fmt_Printf ("Error opening binary: %v" ++ GoString.nl) [e] ;;
                 ret (Some e)
             | Ok binarySrc =>
                 defer (File_Close binarySrc)
                   (r <- os_Create destinationPath ;;
                    match r with
                    | Err e =>
                        fmt_Printf
                          ("Error creating binary: %v" ++ GoString.nl) [e] ;;
                        ret (Some e)
                    | Ok binaryDest =>
                        defer (File_Close binaryDest)
                          (err <- File_Chmod binaryDest perm_0100 ;;
                           match err with
                           | Some e =>
                               fmt_Printf
                                 ("Error setting permissions: %v"
                                  ++ GoString.nl) [e] ;;
                               ret (Some e)
                           | None =>
                               r <- io_Copy binaryDest binarySrc ;;
                               match r with
                               | Err e =>
                                   fmt_Printf
                                     ("Error copying binary: %v"
                                      ++ GoString.nl) [e] ;;
                                   ret (Some e)
                               | Ok _ =>
                                   err <- syscall_Chroot tempDir ;;
                                   match err with
                                   | Some e =>
                                       fmt_Printf
                                         ("Error chrooting: %v"
                                          ++ GoString.nl) [e] ;;
                                       ret (Some e)
                                   | None => ret None
                                   end
                               end
                           end)
                    end)
             end
         end)
  end.

Definition main (os_Args : list string) : M unit :=
  match nth_error os_Args 3 with
  | None => panic (IndexOutOfRange 3 (List.length os_Args))
  | Some command =>
      let args := skipn 4 os_Args in
      err <- isolateFileSystem command ;;
      match err with
      | Some e =>
          fmt_Printf ("Error isolating file system: %v" ++ GoString.nl) [e] ;;
          os_Exit 1%Z
      | None =>
          r <- cmd_Run (user_Command command args) ;;
          match r with
          | RunNil => ret tt
          | RunExitError ExitCode _ => os_Exit ExitCode
          | RunOtherError err =>
              fmt_Printf "Err: %v" [err] ;;
              os_Exit 1%Z
          end
      end
  end.

(** A whole run of [part_000]: its [main] started on an empty history. *)
Definition run (w : World) (os_Args : list string) : Trace * Outcome unit :=
  main os_Args w [].

(** ** Reading a trace of the stage *)

(** The files the trace opened or created, in order. *)
Fixpoint opened (t : Trace) : list File :=
  match t with
  | [] => []
  | EvOpen name (Ok fd) :: t' => {| Name := name; Fd := fd |} :: opened t'
  | EvCreate name (Ok fd) :: t' => {| Name := name; Fd := fd |} :: opened t'
  | _ :: t' => opened t'
  end.

(** The files the trace closed, in order. *)
Fixpoint closed (t : Trace) : list File :=
  match t with
  | [] => []
  | EvFileClose f :: t' => f :: closed t'
  | _ :: t' => closed t'
  end.

Definition is_print (e : Event) : bool :=
  match e with
  | EvPrint _ => true
  | _ => false
  end.

Definition is_command (e : Event) : bool :=
  match e with
  | EvRun _ _ => true
  | _ => false
  end.

(** The line the stage prints about a failed step. *)
Definition report (what : string) (err : error) : Event :=
  EvPrint (what ++ err ++ GoString.nl)%string.

(** The events of a copy of [binaryPath] into [tempDir] in which every step
    succeeded, up to the change of root. *)
Definition copied (w : World) (tempDir binaryPath : string) (src dst n : Z)
  : Trace :=
  let destinationPath := w_Join w tempDir binaryPath in
  let binarySrc := {| Name := binaryPath; Fd := src |} in
  let binaryDest := {| Name := destinationPath; Fd := dst |} in
  [EvMkdirAll (w_Dir w destinationPath) perm_0600 None;
   EvOpen binaryPath (Ok src);
   EvCreate destinationPath (Ok dst);
   EvChmod binaryDest perm_0100 None;
   EvCopy binaryDest binarySrc (Ok n)].

(** What a change of root into [tempDir] answered [r] adds, and the two
    deferred closes after it. *)
Definition chrooted (w : World) (tempDir binaryPath : string) (src dst : Z)
  (r : option error) : Trace :=
  EvChroot tempDir r
  :: match r with
     | Some e => [report "Error chrooting: " e]
     | None => []
     end
  ++ [EvFileClose {| Name := w_Join w tempDir binaryPath; Fd := dst |};
      EvFileClose {| Name := binaryPath; Fd := src |}].

(** A world for concrete runs: paths are joined with a slash, the parent
    directory is the temporary directory, the binary is opened as
    descriptor 3 and its copy as 4; [chroot] and [child] are the answers of
    the change of root and of the command. *)
Definition sample (chroot : option error) (child : RunResult) : World :=
  {| w_Join := fun a b => (a ++ b)%string;
     w_Dir := fun _ => "/tmp/my-docker7/bin";
     w_TempDir := fun _ _ _ => Ok "/tmp/my-docker7";
     w_MkdirAll := fun _ _ _ => None;
     w_Open := fun _ _ => Ok 3%Z;
     w_Create := fun _ _ => Ok 4%Z;
     w_Chmod := fun _ _ _ => None;
     w_Copy := fun _ _ _ => Ok 4096%Z;
     w_Chroot := fun _ _ => chroot;
     w_Run := fun _ _ => child |}.

Definition argv : list string :=
  ["your_docker"; "run"; "alpine"; "/bin/echo"; "hello"].

End Stage.

(** * Proofs *)

(** ** Symbolic execution *)

Ltac destruct_scrutinee H :=
  match type of H with
  | context [match ?x with _ => _ end] =>
      lazymatch x with
      | context [match _ with _ => _ end] => fail
      | _ => destruct x eqn:?
      end
  end.

(** Unfold the program in [H : f w h = (t, o)] and split on every answer
    of the world; the two loops of [main] are left folded. *)
Ltac exec H :=
  repeat (cbv beta iota zeta delta
            [run main main_in getToken getManifest pullLayer extractTar
             isolateProcess isolateFileSystem
             bind defer ret os_Exit panic slice_from
             os_MkdirTemp httpClient_Get http_NewRequest httpClient_Do
             json_Decode io_ReadAll json_Unmarshal Body_Close os_Create
             io_Copy File_Close cmd_Run syscall_Chroot syscall_Unshare
             os_RemoveAll fmt_Printf fmt_Println2 fst snd negb] in H;
          cbn [app] in H;
          first [ destruct_scrutinee H
                | match type of H with
                  | (_, _) = (_, _) =>
                      apply pair_equal_spec in H; destruct H; subst
                  end ]).

(** Split [H : In e t] along the conses and appends of [t]. *)
Ltac split_in H :=
  repeat first
    [ rewrite in_app_iff in H
    | progress cbn [In] in H
    | match type of H with
      | _ \/ _ => destruct H as [H | H]
      | False => contradiction
      end ].

Ltac leb_facts :=
  repeat match goal with
    | H : (_ <=? _)%nat = true |- _ => apply Nat.leb_le in H
    | H : (_ <=? _)%nat = false |- _ => apply Nat.leb_gt in H
    | H : (_ =? _)%Z = true |- _ => apply Z.eqb_eq in H
    | H : (_ =? _)%Z = false |- _ => apply Z.eqb_neq in H
    end.

(** Find an event in the trace of a concrete run. *)
Ltac in_concrete := vm_compute; repeat (try (left; reflexivity); right).

(** Find an event, possibly with unknown arguments, in an explicit list. *)
Ltac find_event := repeat (try (left; reflexivity); right).

(** ** Examples *)

Example parseImage_ubuntu : parseImage "ubuntu" = ("ubuntu", "latest").
Proof. reflexivity. Qed.

Example parseImage_alpine_3_18 : parseImage "alpine:3.18" = ("alpine", "3.18").
Proof. reflexivity. Qed.

Example parseImage_two_colons : parseImage "a:b:c" = ("a", "b").
Proof. reflexivity. Qed.

Example Sprintf_two :
  GoString.Sprintf "x/%s/y/%s" ["a"; "b"] = "x/a/y/b".
Proof. reflexivity. Qed.

Example unshare_flags_value : unshare_flags = 0x24020000%Z.
Proof. reflexivity. Qed.

(** ** Strings *)

Lemma append_empty_r (s : string) : (s ++ "")%string = s.
Proof.
  induction s as [| c s IH]; [reflexivity |]. cbn. rewrite IH. reflexivity.
Qed.

Lemma Sprintf_getTokenURL (image : string) :
  GoString.Sprintf getTokenURL [image] = token_url image.
Proof. reflexivity. Qed.

Lemma Sprintf_getManifestURL (image tag : string) :
  GoString.Sprintf getManifestURL [image; tag] = manifest_url image tag.
Proof. cbn. rewrite append_empty_r. reflexivity. Qed.

Lemma Sprintf_getLayerURL (image digest : string) :
  GoString.Sprintf getLayerURL [image; digest] = blob_url image digest.
Proof. cbn. rewrite append_empty_r. reflexivity. Qed.

Lemma Sprintf_Bearer (token : string) :
  GoString.Sprintf "Bearer %s" [token] = ("Bearer " ++ token)%string.
Proof. cbn. rewrite append_empty_r. reflexivity. Qed.

Lemma Ok_inj {A} (a b : A) : Ok a = Ok b -> a = b.
Proof. intros H. injection H as H. exact H. Qed.

(** ** [parseImage] *)

Lemma prefix_colon (c : ascii) (s : string) :
  String.prefix ":" (String c s) = Ascii.eqb c ":".
Proof.
  cbn [String.prefix].
  destruct (ascii_dec ":" c) as [<- | Hne].
  - destruct s; reflexivity.
  - symmetry. apply Ascii.eqb_neq. congruence.
Qed.

Lemma split_colon_free (s : string) :
  GoString.contains_byte ":" s = false ->
  GoString.split_from ":" 0 s = [s].
Proof.
  induction s as [| c s IH]; intros H; [reflexivity |].
  cbn [GoString.contains_byte] in H.
  apply orb_false_iff in H as [Hc Hs].
  cbn [GoString.split_from].
  rewrite prefix_colon, Hc, (IH Hs). reflexivity.
Qed.

Lemma split_at_first_colon (name rest : string) :
  GoString.contains_byte ":" name = false ->
  GoString.split_from ":" 0 (name ++ String ":" rest)
  = name :: GoString.split_from ":" 0 rest.
Proof.
  induction name as [| c name IH]; intros H.
  - cbn [append GoString.split_from]. rewrite prefix_colon. reflexivity.
  - cbn [GoString.contains_byte] in H.
    apply orb_false_iff in H as [Hc Hs].
    cbn [append GoString.split_from].
    rewrite prefix_colon, Hc, (IH Hs). reflexivity.
Qed.

(** [strings.Split] never returns an empty slice, so the [[]] branch of
    [parseImage] is dead. *)
Lemma Split_colon_nonempty (s : string) : GoString.Split s ":" <> [].
Proof.
  unfold GoString.Split.
  induction s as [| c s IH]; [discriminate |].
  cbn [GoString.split_from]. rewrite prefix_colon.
  destruct (Ascii.eqb c ":"); [discriminate |].
  destruct (GoString.split_from ":" 0 s); [contradiction | discriminate].
Qed.

(** The fields of a split: the first one is colon-free and the argument
    starts with it; when there are more, a colon and the second field
    follow, and after those the end or another colon. *)
Lemma split_fields (s : string) :
  exists f fs,
    GoString.split_from ":" 0 s = f :: fs /\
    GoString.contains_byte ":" f = false /\
    (GoString.contains_byte ":" s = false -> f = s /\ fs = []) /\
    (GoString.contains_byte ":" s = true ->
     exists rest, s = (f ++ String ":" rest)%string /\
                  fs = GoString.split_from ":" 0 rest).
Proof.
  induction s as [| c s (f & fs & Hs & Hf & Hno & Hyes)].
  - exists EmptyString, []. repeat split; try reflexivity; discriminate.
  - cbn [GoString.split_from GoString.contains_byte]. rewrite prefix_colon.
    destruct (Ascii.eqb c ":") eqn:Hc.
    + apply Ascii.eqb_eq in Hc. subst c.
      exists EmptyString, (GoString.split_from ":" 0 s).
      repeat split; try reflexivity; try discriminate.
      intros _. exists s. split; reflexivity.
    + rewrite Hs. cbn [GoString.cons_field orb].
      exists (String c f), fs. split; [reflexivity |]. split.
      * cbn [GoString.contains_byte]. rewrite Hc, Hf. reflexivity.
      * split.
        -- intros H. destruct (Hno H) as [-> ->]. split; reflexivity.
        -- intros H. destruct (Hyes H) as (rest & -> & ->).
           exists rest. split; reflexivity.
Qed.

(** What [parseImage] returns has no colon in it. *)
Lemma parseImage_colon_free (image name tag : string) :
  parseImage image = (name, tag) ->
  GoString.contains_byte ":" name = false /\
  GoString.contains_byte ":" tag = false.
Proof.
  unfold parseImage, GoString.Split.
  destruct (split_fields image) as (f & fs & -> & Hf & Hno & Hyes).
  destruct (GoString.contains_byte ":" image) eqn:Hc.
  - destruct (Hyes eq_refl) as (rest & _ & ->).
    destruct (split_fields rest) as (g & gs & -> & Hg & _ & _).
    intros H. injection H as <- <-. split; assumption.
  - destruct (Hno eq_refl) as [-> ->].
    intros H. injection H as <- <-. split; [assumption | reflexivity].
Qed.

(** C5, as the code has it. A reference without a colon parses to itself
    with the tag ["latest"].  A reference [name:tag] parses to [name] and
    exactly [tag] when neither contains a colon, and only then: the name
    returned is what precedes the first colon and the tag what lies
    between the first colon and the second, and what follows a second
    colon is dropped. *)
Theorem parseImage_name_and_tag (name tag : string) :
  (GoString.contains_byte ":" name = false ->
   parseImage name = (name, "latest")) /\
  (parseImage (name ++ ":" ++ tag) = (name, tag) <->
   GoString.contains_byte ":" name = false /\
   GoString.contains_byte ":" tag = false) /\
  (forall rest,
      GoString.contains_byte ":" name = false ->
      GoString.contains_byte ":" tag = false ->
      parseImage (name ++ ":" ++ tag ++ ":" ++ rest) = (name, tag)).
Proof.
  split; [| split; [split |]].
  - intros Hname. unfold parseImage, GoString.Split.
    rewrite (split_colon_free _ Hname). reflexivity.
  - apply parseImage_colon_free.
  - intros [Hname Htag]. unfold parseImage, GoString.Split. cbn [append].
    rewrite (split_at_first_colon _ _ Hname), (split_colon_free _ Htag).
    reflexivity.
  - intros rest Hname Htag. unfold parseImage, GoString.Split. cbn [append].
    rewrite (split_at_first_colon _ _ Hname), (split_at_first_colon _ _ Htag).
    reflexivity.
Qed.

Lemma parseImage_name_and_tag_witness :
  parseImage "alpine" = ("alpine", "latest") /\
  parseImage "alpine:3.18" = ("alpine", "3.18") /\
  parseImage "alpine:3.18:x" = ("alpine", "3.18").
Proof.
  destruct (parseImage_name_and_tag "alpine" "3.18") as (H1 & H2 & H3).
  split; [exact (H1 eq_refl) |].
  split; [exact (proj2 H2 (conj eq_refl eq_refl)) |].
  exact (H3 "x" eq_refl eq_refl).
Defined.

(** C5 as stated fails on a reference [name:tag] whose name has a colon,
    as the name of an image in a registry with a port has: the port and
    the path are returned as the tag, not [3.18]. *)
Lemma parseImage_registry_port :
  let name := "localhost:5000/alpine" in
  let tag := "3.18" in
  parseImage (name ++ ":" ++ tag) = ("localhost", "5000/alpine") /\
  snd (parseImage (name ++ ":" ++ tag)) <> tag.
Proof. intros name tag. split; [reflexivity | discriminate]. Qed.

(** ** [getToken] *)

(** C8, as the code has it. [getToken] never exits or panics.  It returns
    an error exactly when the request itself fails, when the status code
    of the answer is not 200, or when the body of a 200 answer does not
    decode; and when the endpoint answers 200 with a body that decodes, it
    returns the [Token] field of what the body decoded to.  The answers are
    those of the world: of the GET of the token URL at the history the
    function was called in, and of the decoding of the body of that answer
    right after it. *)
Theorem getToken_error_iff
  (image : string) (w : World) (h t : Trace) (o : Outcome (result string)) :
  getToken image w h = (t, o) ->
  let url := token_url image in
  let decoded (resp : Response) :=
    w_Decode w (h ++ [EvGet url (Ok resp)]) (Body resp) in
  (exists r, o = Done r) /\
  ((exists err, o = Done (Err err)) <->
   (exists err, w_Get w h url = Err err) \/
   (exists resp, w_Get w h url = Ok resp /\ StatusCode resp <> 200%Z) \/
   (exists resp err,
       w_Get w h url = Ok resp /\ StatusCode resp = 200%Z /\
       decoded resp = Err err)) /\
  (forall resp tokenResponse,
      w_Get w h url = Ok resp ->
      StatusCode resp = 200%Z ->
      decoded resp = Ok tokenResponse ->
      o = Done (Ok (Token tokenResponse))).
Proof.
  intros H url decoded. subst url decoded. cbv beta.
  rewrite <- Sprintf_getTokenURL.
  exec H; leb_facts; unfold http_StatusOK in *.
  all: repeat match goal with
         | Hx : ?a = ?b |- _ =>
             match a with
             | w_Get _ _ _ => rewrite Hx
             | w_Decode _ _ _ => idtac
             end
         end.
  all: split; [eexists; reflexivity |]; split; [split |].
  (* an error has one of the three causes *)
  all: try (intros [e He]; try discriminate He;
            first
              [ left; eexists; reflexivity
              | right; left; eexists; split; [reflexivity | assumption]
              | right; right; do 2 eexists; split; [reflexivity |];
                split; eassumption ]).
  (* each cause gives an error *)
  all: try (intros [(e & He) | [(rp & He & Hst) | (rp & e & He & Hst & Hd)]];
            try discriminate He;
            try (apply Ok_inj in He; subst rp);
            try contradiction; try congruence;
            eexists; reflexivity).
  (* status 200 and a body that decodes *)
  all: intros resp tr Hg Hst Hd; try discriminate Hg;
    apply Ok_inj in Hg; subst resp; try contradiction; try congruence.
Qed.

Lemma getToken_error_iff_witness :
  let w := Sample.world 200 Sample.two_layers 200 Sample.tar_ok RunNil in
  snd (getToken "library/alpine" w []) = Done (Ok "t0k3n").
Proof.
  intros w.
  exact (proj2 (proj2 (getToken_error_iff "library/alpine" w []
                         (fst (getToken "library/alpine" w []))
                         (snd (getToken "library/alpine" w []))
                         (surjective_pairing _)))
           (Sample.response 200 0)
           {| Token := "t0k3n"; AccessToken := ""; ExpiresIn := 300;
              IssuedAt := "2024-01-01T00:00:00Z" |}
           eq_refl eq_refl eq_refl).
Defined.

(** C8 as stated fails: the token endpoint answers 201, a success status,
    with a body that decodes, and [getToken] returns an error. *)
Lemma getToken_rejects_201 :
  let w := Sample.world 201 Sample.two_layers 200 Sample.tar_ok RunNil in
  let url := GoString.Sprintf getTokenURL ["library/alpine"] in
  w_Get w [] url = Ok (Sample.response 201 0) /\
  (200 <= StatusCode (Sample.response 201 0) <= 299)%Z /\
  (exists tokenResponse,
      w_Decode w [EvGet url (Ok (Sample.response 201 0))] (Stream 0)
      = Ok tokenResponse) /\
  getToken "library/alpine" w []
  = ([EvGet url (Ok (Sample.response 201 0))],
     Done (Err "Error getting token: 201 Created")).
Proof.
  intros w url. split; [reflexivity |]. split; [cbn; lia |].
  split; [eexists; reflexivity | reflexivity].
Qed.

(** ** The two loops of [main] *)

Lemma run_failed_None (r : RunResult) : run_failed r = None -> r = RunNil.
Proof. destruct r; [reflexivity | discriminate | discriminate]. Qed.

(** The extraction loop either unpacks every archive, or stops at the
    first one for which [tar] fails, prints, and exits with 1. *)
Lemma extractLayers_shape (dest : string) (w : World) :
  forall (names : list string) (h t : Trace) (o : Outcome unit),
    extractLayers names dest w h = (t, o) ->
    (o = Done tt /\
     t = map (fun n => EvRun (tar_Command n dest) RunNil) names)
    \/
    (exists done failed rest r err,
        names = done ++ failed :: rest /\
        run_failed r = Some err /\
        t = map (fun n => EvRun (tar_Command n dest) RunNil) done
            ++ [EvRun (tar_Command failed dest) r;
                EvPrint ("Error while applying layer: " ++ " " ++ err
                         ++ GoString.nl)%string] /\
        o = Exited 1%Z).
Proof.
  induction names as [| n names IH]; intros h t o H.
  - left. cbn in H. apply pair_equal_spec in H as [<- <-]. auto.
  - cbn [extractLayers] in H. exec H.
    + right. exists [], n, names. eauto 10.
    + match goal with
      | Hr : run_failed ?x = None |- _ =>
          apply run_failed_None in Hr; rewrite Hr
      end.
      match goal with
      | Hl : extractLayers _ _ _ _ = _ |- _ =>
          apply IH in Hl
            as [[-> ->] | (done & failed & rest & r & err & -> & Hr' & -> & ->)]
      end.
      * left. auto.
      * right. exists (n :: done), failed, rest, r, err. auto.
Qed.

Lemma pull_event_mono (layers layers' : list Descriptor.t) (e : Event) :
  (forall l, In l layers -> In l layers') ->
  pull_event layers e -> pull_event layers' e.
Proof.
  intros Hsub. destruct e; cbn; auto.
  intros (l & Hl & H). exists l. auto.
Qed.

(** One download: what it adds to the trace and how it ends. *)
Lemma pullLayer_shape (token image : string) (l : Descriptor.t) (w : World)
  (h t : Trace) (o : Outcome (result string)) :
  pullLayer token image (Descriptor.Digest l) w h = (t, o) ->
  Forall (pull_event [l]) t /\
  match o with
  | Done (Ok name) =>
      7 <= GoString.len (Descriptor.Digest l) /\
      name = layer_file (Descriptor.Digest l) /\
      exists fd body n,
        In (EvCreate name (Ok fd)) t /\
        In (EvCopy {| Name := name; Fd := fd |} body (Ok n)) t
  | Done (Err _) => True
  | Exited _ => False
  | Panicked p =>
      GoString.len (Descriptor.Digest l) < 7 /\
      p = SliceBoundsOutOfRange 7 (GoString.len (Descriptor.Digest l))
  end.
Proof.
  intros H. exec H. all: leb_facts.
  all: split; [ repeat constructor; cbn; eauto | cbn; auto ].
  split; [assumption |]. split; [reflexivity |].
  do 3 eexists. split; [right; right; left; reflexivity |].
  right; right; right; left; reflexivity.
Qed.

Lemma pullLayers_shape (token image : string) (w : World) :
  forall (layers : list Descriptor.t) (names : list string) (h t : Trace)
         (o : Outcome (list string)),
    pullLayers token image layers names w h = (t, o) ->
    Forall (pull_event layers) t /\
    match o with
    | Done names' =>
        names' = names ++ map (fun l => layer_file (Descriptor.Digest l)) layers
        /\ forall l, In l layers ->
             7 <= GoString.len (Descriptor.Digest l) /\
             exists fd body n,
               In (EvCreate (layer_file (Descriptor.Digest l)) (Ok fd)) t /\
               In (EvCopy {| Name := layer_file (Descriptor.Digest l);
                             Fd := fd |} body (Ok n)) t
    | Exited code => code = 1%Z
    | Panicked p =>
        exists l, In l layers /\ GoString.len (Descriptor.Digest l) < 7 /\
                  p = SliceBoundsOutOfRange 7
                        (GoString.len (Descriptor.Digest l))
    end.
Proof.
  induction layers as [| l layers IH]; intros names h t o H.
  - cbn in H. apply pair_equal_spec in H as [<- <-].
    rewrite app_nil_r. split; [constructor |]. split; [reflexivity |].
    intros l [].
  - cbn [pullLayers] in H. unfold bind at 1 in H.
    destruct (pullLayer token image (Descriptor.Digest l) w h)
      as [t1 o1] eqn:Hone.
    apply pullLayer_shape in Hone as [Hev Hout].
    assert (Hev' : Forall (pull_event (l :: layers)) t1).
    { eapply Forall_impl; [| exact Hev].
      intros e. apply pull_event_mono. cbn. intuition. }
    destruct o1 as [[name | err] | code | p].
    + destruct (pullLayers token image layers (names ++ [name]) w (h ++ t1))
        as [t2 o2] eqn:Hrest.
      apply pair_equal_spec in H as [<- <-].
      apply IH in Hrest as [Hev2 Hout2].
      destruct Hout as (Hlen & -> & fd & body & n & Hcreate & Hcopy).
      split.
      * apply Forall_app. split; [exact Hev' |].
        eapply Forall_impl; [| exact Hev2].
        intros e. apply pull_event_mono. cbn. auto.
      * destruct o2 as [names' | code | p].
        -- destruct Hout2 as [-> Hall]. rewrite <- app_assoc.
           split; [reflexivity |].
           intros l' [<- | Hin].
           ++ split; [exact Hlen |]. exists fd, body, n.
              rewrite !in_app_iff. auto.
           ++ destruct (Hall l' Hin) as (Hlen' & fd' & body' & n' & Hc & Hd).
              split; [exact Hlen' |]. exists fd', body', n'.
              rewrite !in_app_iff. auto.
        -- exact Hout2.
        -- destruct Hout2 as (l' & Hin & Hlt & ->). exists l'. cbn. auto.
    + exec H. split; [| reflexivity].
      apply Forall_app. split; [exact Hev' | repeat constructor].
    + contradiction.
    + apply pair_equal_spec in H as [<- <-]. split; [exact Hev' |].
      destruct Hout as [Hlt ->]. exists l. cbn. auto.
Qed.

(** ** Events in the traces of the loops *)

(** After [exec]: replace what is known about the two loops by their
    shapes. *)
Ltac loops :=
  repeat match goal with
    | H : pullLayers _ _ _ _ _ _ = (_, _) |- _ =>
        apply pullLayers_shape in H; cbn beta iota in H; destruct H as [? ?]
    | H : extractLayers _ _ _ _ = (_, _) |- _ =>
        apply extractLayers_shape in H;
        destruct H as [[? ?] | (? & ? & ? & ? & ? & ? & ? & ? & ?)];
        try discriminate; subst
    end.

Lemma pull_event_In (layers : list Descriptor.t) (t : Trace) (e : Event) :
  Forall (pull_event layers) t -> In e t -> pull_event layers e.
Proof. intros H. rewrite Forall_forall in H. apply H. Qed.

Lemma In_map_tar (dest : string) (names : list string) (e : Event) :
  In e (map (fun n => EvRun (tar_Command n dest) RunNil) names) ->
  exists n, In n names /\ e = EvRun (tar_Command n dest) RunNil.
Proof. intros H. apply in_map_iff in H as (n & <- & Hn). eauto. Qed.

(** An event found in the trace of a loop: use the shape of the loop. *)
Ltac in_loop H :=
  first
    [ match goal with
      | Hp : Forall (pull_event _) ?t |- _ =>
          match type of H with
          | In _ t => apply (pull_event_In _ _ _ Hp) in H; cbn in H
          end
      end
    | apply In_map_tar in H; destruct H as (? & ? & H) ].

(** After [exec] and [loops]: where can the event of [H] be? *)
Ltac find_in_run H :=
  split_in H; try discriminate H;
  try (in_loop H; try contradiction; try discriminate H).

(** ** Every run is one of the listed cases *)

Ltac clear_answers :=
  repeat match goal with
    | Hx : w_MkdirTemp _ _ _ _ = _ |- _ => clear Hx
    | Hx : w_Get _ _ _ = _ |- _ => clear Hx
    | Hx : w_NewRequest _ _ _ = _ |- _ => clear Hx
    | Hx : w_Do _ _ _ = _ |- _ => clear Hx
    | Hx : w_Decode _ _ _ = _ |- _ => clear Hx
    | Hx : w_ReadAll _ _ _ = _ |- _ => clear Hx
    | Hx : w_Unmarshal _ _ = _ |- _ => clear Hx
    | Hx : w_Run _ _ _ = _ |- _ => clear Hx
    | Hx : w_Chroot _ _ _ = _ |- _ => clear Hx
    | Hx : w_Unshare _ _ _ = _ |- _ => clear Hx
    end.

Lemma nth_error_3_2 {A} (l : list A) (x : A) :
  nth_error l 3 = Some x -> nth_error l 2 <> None.
Proof. destruct l as [| a [| b [| c l]]]; cbn; discriminate. Qed.

(** Put what the loops gave into the form the constructors of [MainRun]
    expect. *)
Ltac tidy :=
  repeat match goal with
    | Hx : _ /\ _ |- _ => destruct Hx
    | Hx : exists _, _ |- _ => destruct Hx
    | Hx : Exited _ = Exited _ |- _ => injection Hx as Hx
    | Hx : Done _ = Done _ |- _ => clear Hx
    | Hx : Panicked _ = Panicked _ |- _ => injection Hx as Hx
    end;
  subst.

Lemma run_MainRun (w : World) (os_Args : list string) (t : Trace)
  (o : Outcome unit) :
  run w os_Args = (t, o) -> MainRun os_Args t o.
Proof.
  intros H.
  exec H; loops; leb_facts; clear_answers; tidy.
  all: try match goal with
         | H3 : nth_error _ 3 = Some _, H2 : nth_error _ 2 = None |- _ =>
             destruct (nth_error_3_2 _ _ H3 H2)
         end.
  all: rewrite <- ?app_assoc; cbn [app]; rewrite ?app_nil_r.
  all: try (apply RunNoArgs; assumption).
  all: try apply RunNoTempDir.
  all: try match goal with
         | |- MainRun _ (EvMkdirTemp _ _ (Ok ?dir) :: ?a :: ?b :: ?c :: ?d
                         :: ?e :: ?f :: EvUnmarshal ?bytes (Ok ?m)
                         :: EvBodyClose ?body :: _) _ =>
             first
               [ eapply (RunCommand _ dir [a; b; c; d; e; f] bytes m body)
               | eapply (RunUnshareFails _ dir [a; b; c; d; e; f] bytes m body)
               | eapply (RunChrootFails _ dir [a; b; c; d; e; f] bytes m body)
               | eapply (RunExtractFails _ dir [a; b; c; d; e; f] bytes m body)
               | eapply (RunPullPanics _ dir [a; b; c; d; e; f] bytes m body)
               | eapply (RunPullFails _ dir [a; b; c; d; e; f] bytes m body) ];
             try eassumption; try (symmetry; eassumption);
             try (repeat constructor)
         end.
  all: try (apply RunRegistryFails; repeat constructor).
Qed.

(** ** Events in the segments of a run *)

Lemma registry_event_In (reg : Trace) (e : Event) :
  Forall registry_event reg -> In e reg -> registry_event e.
Proof. intros H. rewrite Forall_forall in H. apply H. Qed.

(** An event found in a segment of a [MainRun] trace: use what is known
    about the segment. *)
Ltac in_segment H :=
  first
    [ match goal with
      | Hp : Forall (pull_event _) ?t |- _ =>
          match type of H with
          | In _ t => apply (pull_event_In _ _ _ Hp) in H; cbn in H
          end
      | Hp : Forall registry_event ?t |- _ =>
          match type of H with
          | In _ t => apply (registry_event_In _ _ Hp) in H; cbn in H
          end
      end
    | apply In_map_tar in H; destruct H as (? & ? & H) ].

(** Case analysis on where an event sits in a [MainRun] trace. *)
Ltac locate H :=
  unfold stem, tar_ok_events in H;
  split_in H;
  try match type of H with
    | In _ (fst (after_command _ ?r)) =>
        destruct r; cbn [after_command fst] in H; split_in H
    end;
  try discriminate H;
  try (in_segment H; try contradiction; try discriminate H).

(** ** Token failure *)

(** C6. When the token endpoint answers with a status outside 200..299,
    the run sends no request to the manifest or blob endpoints (the trace
    has no [httpClient.Do]) and stops through [os.Exit(1)]. *)
Theorem token_failure_stops_before_registry
  (w : World) (os_Args : list string) (t : Trace) (o : Outcome unit)
  (url : string) (resp : Response) :
  run w os_Args = (t, o) ->
  In (EvGet url (Ok resp)) t ->
  (StatusCode resp < 200 \/ 299 < StatusCode resp)%Z ->
  (forall req r, ~ In (EvDo req r) t) /\ o = Exited 1%Z /\ exit_status o = 1%Z.
Proof.
  intros H Hin Hst.
  exec H; loops; leb_facts.
  all: split_in Hin; try discriminate Hin;
    try (in_loop Hin; try contradiction; try discriminate Hin).
  all: try match goal with
         | Hs : StatusCode ?a = http_StatusOK |- _ =>
             injection Hin as _ Heq; subst; unfold http_StatusOK in Hs; lia
         end.
  all: split; [| split; reflexivity].
  all: intros req r Hdo; split_in Hdo; discriminate Hdo.
Qed.

Lemma token_failure_stops_before_registry_witness :
  let w := Sample.world 401 Sample.two_layers 200 Sample.tar_ok RunNil in
  (forall req r, ~ In (EvDo req r) (fst (run w Sample.argv))) /\
  snd (run w Sample.argv) = Exited 1%Z /\
  exit_status (snd (run w Sample.argv)) = 1%Z.
Proof.
  intros w.
  apply (token_failure_stops_before_registry w Sample.argv _ _
           (GoString.Sprintf getTokenURL ["library/alpine"])
           (Sample.response 401 0)).
  - vm_compute. reflexivity.
  - vm_compute. auto.
  - right. vm_compute. reflexivity.
Defined.

(** ** Extractions *)

Lemma extractions_app (t1 t2 : Trace) :
  extractions (t1 ++ t2) = extractions t1 ++ extractions t2.
Proof.
  induction t1 as [| e t1 IH]; [reflexivity |].
  cbn [app extractions]. destruct (extraction_of e); cbn; rewrite IH; reflexivity.
Qed.

Lemma extractions_pull (layers : list Descriptor.t) (t : Trace) :
  Forall (pull_event layers) t -> extractions t = [].
Proof.
  induction 1 as [| e t He _ IH]; [reflexivity |].
  cbn [extractions]. destruct e; cbn in He; try contradiction; exact IH.
Qed.

Lemma extractions_registry (t : Trace) :
  Forall registry_event t -> extractions t = [].
Proof.
  induction 1 as [| e t He _ IH]; [reflexivity |].
  cbn [extractions]. destruct e; cbn in He; try contradiction; exact IH.
Qed.

Lemma extractions_tar_ok (dest : string) (names : list string) :
  extractions (tar_ok_events names dest) = map (fun n => (n, dest)) names.
Proof.
  induction names as [| n names IH]; [reflexivity |].
  cbn [tar_ok_events map extractions]. fold (tar_ok_events names dest).
  rewrite IH. reflexivity.
Qed.

(** The extractions of a trace that got through the download loop are
    those of what follows the loop. *)
Lemma extractions_stem (tempDir : string) (reg : Trace) (bytes : string)
  (m : ManifestResponse.t) (body : ReadCloser) (pull rest : Trace) :
  Forall registry_event reg ->
  Forall (pull_event (ManifestResponse.Layers m)) pull ->
  extractions (stem tempDir reg bytes m body (pull ++ rest))
  = extractions rest.
Proof.
  intros Hreg Hpull. unfold stem.
  change (EvMkdirTemp "" "my-docker" (Ok tempDir)
          :: reg ++ EvUnmarshal bytes (Ok m) :: EvBodyClose body :: pull ++ rest)
    with ([EvMkdirTemp "" "my-docker" (Ok tempDir)]
          ++ reg ++ [EvUnmarshal bytes (Ok m); EvBodyClose body]
          ++ pull ++ rest).
  rewrite !extractions_app, (extractions_registry _ Hreg),
    (extractions_pull _ _ Hpull).
  reflexivity.
Qed.

Lemma firstn_map_app {A B} (f : A -> B) (xs ys : list A) :
  map f xs = firstn (List.length xs) (map f (xs ++ ys)).
Proof.
  rewrite map_app, firstn_app, length_map, Nat.sub_diag, firstn_O, app_nil_r.
  rewrite <- (length_map f xs), firstn_all. reflexivity.
Qed.

Lemma expected_extractions (m : ManifestResponse.t) (dest : string) :
  map (fun l => (layer_file (Descriptor.Digest l), dest))
    (ManifestResponse.Layers m)
  = map (fun n => (n, dest)) (layer_files m).
Proof. unfold layer_files. rewrite map_map. reflexivity. Qed.

(** The extractions of each case of [MainRun]. *)
Lemma MainRun_extractions (os_Args : list string) (t : Trace)
  (o : Outcome unit) :
  MainRun os_Args t o ->
  forall bytes manifest tempDir,
    In (EvUnmarshal bytes (Ok manifest)) t ->
    In (EvMkdirTemp "" "my-docker" (Ok tempDir)) t ->
    (exists done rest,
        layer_files manifest = done ++ rest /\
        extractions t = map (fun n => (n, tempDir)) done /\
        (forall path r, ~ In (EvChroot path r) t))
    \/ extractions t = map (fun n => (n, tempDir)) (layer_files manifest).
Proof.
  intros H bytes manifest dir Hman Hdir.
  destruct H;
    locate Hman; injection Hman as <- <-;
    locate Hdir; injection Hdir as <-.
  - (* the download loop exits *)
    left. exists [], (layer_files m). split; [reflexivity |]. split.
    + rewrite <- (app_nil_r pull), extractions_stem by assumption. reflexivity.
    + intros path r Hc. locate Hc.
  - (* the download loop panics *)
    left. exists [], (layer_files m). split; [reflexivity |]. split.
    + rewrite extractions_stem by assumption. reflexivity.
    + intros path r Hc. locate Hc.
  - (* an extraction fails *)
    left. exists (done ++ [failed]), rest. split.
    + rewrite <- app_assoc. assumption.
    + split.
      * rewrite extractions_stem, extractions_app, extractions_tar_ok,
          map_app by assumption.
        reflexivity.
      * intros path r' Hc. locate Hc.
  - right. rewrite extractions_stem, extractions_app, extractions_tar_ok
      by assumption.
    apply app_nil_r.
  - right. rewrite extractions_stem, extractions_app, extractions_tar_ok
      by assumption.
    apply app_nil_r.
  - right. rewrite extractions_stem, extractions_app, extractions_tar_ok
      by assumption.
    destruct r; apply app_nil_r.
Qed.

(** ** Runs in which no step fails *)

(** Find an event in a trace made of conses and appends. *)
Ltac find_in :=
  first
    [ assumption
    | left; reflexivity
    | solve [right; find_in]
    | solve [apply in_or_app; left; find_in]
    | solve [apply in_or_app; right; find_in] ].

Lemma written_mono (image : string) (t t' : Trace) (l : Descriptor.t) :
  (forall e, In e t -> In e t') -> written image t l -> written image t' l.
Proof.
  intros Hsub (req & resp & fd & n & Hdo & Hurl & Hst & Hcreate & Hcopy).
  exists req, resp, fd, n. auto 6.
Qed.

(** One download: a returned name means the layer was written, a returned
    error that a step failed. *)
Lemma pullLayer_steps (token image : string) (l : Descriptor.t) (w : World)
  (h t : Trace) (o : Outcome (result string)) :
  pullLayer token image (Descriptor.Digest l) w h = (t, o) ->
  match o with
  | Done (Ok _) => written image t l
  | Done (Err _) => exists e, In e t /\ step_failed e = true
  | _ => True
  end.
Proof.
  intros H. exec H; try exact I.
  all: try (match goal with
            | |- exists e, In e ?t /\ _ =>
                match t with
                | context [EvNewRequest ?a ?b (Some ?x)] =>
                    exists (EvNewRequest a b (Some x))
                | context [EvDo ?r (Err ?x)] => exists (EvDo r (Err x))
                | context [EvCreate ?a (Err ?x)] => exists (EvCreate a (Err x))
                | context [EvCopy ?a ?b (Err ?x)] =>
                    exists (EvCopy a b (Err x))
                | context [EvDo ?r (Ok ?x)] => exists (EvDo r (Ok x))
                end
            end;
            split;
            [ find_event
            | first [ reflexivity
                    | match goal with
                      | Hs : (StatusCode _ =? _)%Z = false |- _ =>
                          cbn; rewrite Hs; reflexivity
                      end ] ]).
  do 4 eexists. split; [right; left; reflexivity |].
  split; [apply Sprintf_getLayerURL |].
  split; [match goal with
          | Hs : (StatusCode _ =? _)%Z = true |- _ =>
              apply Z.eqb_eq in Hs; exact Hs
          end |].
  split; [right; right; left; reflexivity |].
  right; right; right; left; reflexivity.
Qed.

(** The download loop: when it is left normally every layer was written,
    and when it exits a step failed. *)
Lemma pullLayers_steps (token image : string) (w : World) :
  forall (layers : list Descriptor.t) (names : list string) (h t : Trace)
         (o : Outcome (list string)),
    pullLayers token image layers names w h = (t, o) ->
    match o with
    | Done _ => forall l, In l layers -> written image t l
    | Exited _ => exists e, In e t /\ step_failed e = true
    | Panicked _ => True
    end.
Proof.
  induction layers as [| l layers IH]; intros names h t o H.
  - cbn in H. apply pair_equal_spec in H as [<- <-]. intros l [].
  - cbn [pullLayers] in H. unfold bind at 1 in H.
    destruct (pullLayer token image (Descriptor.Digest l) w h)
      as [t1 o1] eqn:Hone.
    pose proof (pullLayer_shape _ _ _ _ _ _ _ Hone) as [_ Hshape].
    apply pullLayer_steps in Hone.
    destruct o1 as [[name | err] | code | p].
    + destruct (pullLayers token image layers (names ++ [name]) w (h ++ t1))
        as [t2 o2] eqn:Hrest.
      apply pair_equal_spec in H as [<- <-].
      apply IH in Hrest. destruct o2 as [names' | code | p]; [| | exact I].
      * intros l' [<- | Hl'].
        -- eapply written_mono; [| exact Hone].
           intros e He. apply in_or_app. left. exact He.
        -- eapply written_mono; [| exact (Hrest l' Hl')].
           intros e He. apply in_or_app. right. exact He.
      * destruct Hrest as (e & He & Hf). exists e.
        split; [apply in_or_app; right; exact He | exact Hf].
    + exec H. destruct Hone as (e & He & Hf). exists e.
      split; [apply in_or_app; left; exact He | exact Hf].
    + contradiction.
    + apply pair_equal_spec in H as [_ <-]. exact I.
Qed.

(** A run in which no step of a download or of an extraction fails, on a
    manifest whose digests have at least 7 bytes, goes on to the change of
    root, and has written every layer of the manifest by then. *)
Lemma unfailing_run (w : World) (os_Args : list string) (t : Trace)
  (o : Outcome unit) (bytes : string) (manifest : ManifestResponse.t) :
  run w os_Args = (t, o) ->
  In (EvUnmarshal bytes (Ok manifest)) t ->
  (forall e, In e t -> step_failed e = false) ->
  (forall l, In l (ManifestResponse.Layers manifest) ->
             7 <= GoString.len (Descriptor.Digest l)) ->
  (exists path r, In (EvChroot path r) t) /\
  (forall imageName,
      nth_error os_Args 2 = Some imageName ->
      forall l, In l (ManifestResponse.Layers manifest) ->
                written (fst (parseImage imageName)) t l).
Proof.
  intros H. exec H.
  all: try match goal with
         | Hp : pullLayers _ _ _ _ _ _ = (_, _) |- _ =>
             pose proof (pullLayers_steps _ _ _ _ _ _ _ _ Hp) as Hsteps;
             cbn beta iota in Hsteps
         end.
  all: loops; clear_answers; tidy.
  all: intros Hman Hno Hlen.
  all: find_in_run Hman.
  all: injection Hman as <- <-.
  (* the download loop was left through [os.Exit] or a panic *)
  all: try match goal with
         | Hf : step_failed ?x = true, Hi : In ?x _ |- _ =>
             rewrite Hno in Hf; [discriminate Hf | find_in]
         end.
  all: try match goal with
         | Hl : In ?l _, Hs : GoString.len (Descriptor.Digest ?l) < 7 |- _ =>
             specialize (Hlen l Hl); lia
         end.
  (* an extraction failed *)
  all: try match goal with
         | Hr : run_failed ?r = Some _ |- _ =>
             match goal with
             | |- context [EvRun (tar_Command ?n ?d) r] =>
                 assert (Hf : step_failed (EvRun (tar_Command n d) r) = false)
                   by (apply Hno; find_in);
                 destruct r; discriminate
             end
         end.
  (* the run went on *)
  all: split; [do 2 eexists; find_in |].
  all: intros imageName Hargs; injection Hargs as <-.
  all: match goal with
       | Hp : parseImage _ = _ |- _ => rewrite Hp; cbn [fst]
       end.
  all: intros l Hl; eapply written_mono; [| exact (Hsteps l Hl)];
    intros ev Hev; find_in.
Qed.

(** C1, as the code has it. The extractions of a run are [tar] runs on
    the archives of the manifest's layers, in the manifest's order, each
    into the temporary directory.  In every run, whatever fails, they form
    an initial part of that list: none is skipped, none is out of order,
    and, an event of the trace being a call that has returned, each has
    completed before the next starts.  In every run in which no step of a
    download or of an extraction fails, on a manifest whose digests have
    at least 7 bytes, they are the whole list, one per layer. *)
Theorem extraction_follows_manifest
  (w : World) (os_Args : list string) (t : Trace) (o : Outcome unit)
  (bytes : string) (manifest : ManifestResponse.t) (tempDir : string) :
  run w os_Args = (t, o) ->
  In (EvUnmarshal bytes (Ok manifest)) t ->
  In (EvMkdirTemp "" "my-docker" (Ok tempDir)) t ->
  let expected :=
    map (fun l => (layer_file (Descriptor.Digest l), tempDir))
      (ManifestResponse.Layers manifest) in
  (exists k, extractions t = firstn k expected) /\
  ((forall e, In e t -> step_failed e = false) ->
   (forall l, In l (ManifestResponse.Layers manifest) ->
              7 <= GoString.len (Descriptor.Digest l)) ->
   extractions t = expected /\
   List.length (extractions t)
   = List.length (ManifestResponse.Layers manifest)).
Proof.
  intros H Hman Hdir expected. subst expected.
  pose proof (unfailing_run _ _ _ _ _ _ H Hman) as Hgoes.
  apply run_MainRun in H.
  rewrite expected_extractions.
  destruct (MainRun_extractions _ _ _ H _ _ _ Hman Hdir)
    as [(done & rest & Hfiles & -> & Hnone) | ->].
  - split.
    + exists (List.length done). rewrite Hfiles. apply firstn_map_app.
    + intros Hno Hlen.
      destruct (Hgoes Hno Hlen) as [(path & r & Hc) _].
      destruct (Hnone _ _ Hc).
  - split.
    + exists (List.length (layer_files manifest)).
      rewrite <- (length_map (fun n => (n, tempDir))), firstn_all. reflexivity.
    + intros _ _. split; [reflexivity |].
      unfold layer_files. rewrite !length_map. reflexivity.
Qed.

(** Decide a property of every event of an explicit trace. *)
Ltac each_event H :=
  vm_compute in H;
  repeat (destruct H as [<- | H]; [first [reflexivity | cbn; lia] |]);
  contradiction.

Lemma extraction_follows_manifest_witness :
  let w := Sample.world 200 Sample.two_layers 200 Sample.tar_ok RunNil in
  extractions (fst (run w Sample.argv))
  = [("aaaa.tar.gz", "/tmp/my-docker42"); ("bbbb.tar.gz", "/tmp/my-docker42")]
  /\ List.length (extractions (fst (run w Sample.argv))) = 2.
Proof.
  intros w.
  refine (proj2 (extraction_follows_manifest w Sample.argv
                   (fst (run w Sample.argv)) (snd (run w Sample.argv))
                   "{...}" Sample.two_layers "/tmp/my-docker42" _ _ _) _ _).
  - apply surjective_pairing.
  - in_concrete.
  - in_concrete.
  - intros e He. each_event He.
  - intros l Hl. each_event Hl.
Defined.

(** C1 as stated fails on a manifest with a digest of fewer than 7 bytes,
    though no request and no other step fails: the manifest has one layer,
    every request is answered with status 200, and [main] panics in the
    download of the layer: no extraction is made. *)
Lemma short_digest_no_extraction :
  let digest := "md5:0f" in
  let w := Sample.world 200 (Sample.manifest [digest]) 200 Sample.tar_ok
             RunNil in
  In (EvUnmarshal "{...}" (Ok (Sample.manifest [digest])))
    (fst (run w Sample.argv)) /\
  List.length (ManifestResponse.Layers (Sample.manifest [digest])) = 1 /\
  filter step_failed (fst (run w Sample.argv)) = [] /\
  extractions (fst (run w Sample.argv)) = [] /\
  snd (run w Sample.argv) = Panicked (SliceBoundsOutOfRange 7 6).
Proof.
  intros digest w. split; [in_concrete |]. vm_compute. repeat split.
Qed.

(** C4. When the [tar] run for an archive fails, nothing follows it in the
    trace but the error message: the run stops through [os.Exit(1)], the
    failed extraction is the last one, and the extractions made are those
    of the manifest's layers up to and including the failing one. *)
Theorem failed_extraction_ends_run
  (w : World) (os_Args : list string) (t : Trace) (o : Outcome unit)
  (src dest : string) (r : RunResult) :
  run w os_Args = (t, o) ->
  In (EvRun (tar_Command src dest) r) t ->
  run_failed r <> None ->
  (exists pre msg, t = pre ++ [EvRun (tar_Command src dest) r; EvPrint msg]) /\
  (exists bytes manifest done rest,
      In (EvUnmarshal bytes (Ok manifest)) t /\
      layer_files manifest = done ++ src :: rest /\
      extractions t = map (fun n => (n, dest)) (done ++ [src])) /\
  o = Exited 1%Z /\
  exit_status o = 1%Z.
Proof.
  intros H Hin Hfail.
  apply run_MainRun in H.
  destruct H; locate Hin;
    try (unfold tar_Command, user_Command in Hin; discriminate Hin);
    try (injection Hin as _ _ ->; destruct (Hfail eq_refl)).
  unfold tar_Command in Hin. injection Hin as <- <- <-.
  split; [| split; [| split; reflexivity]].
  - exists (EvMkdirTemp "" "my-docker" (Ok tempDir)
            :: reg ++ EvUnmarshal bytes (Ok m) :: EvBodyClose body
            :: pull ++ tar_ok_events done tempDir), msg.
    unfold stem. cbn [app]. rewrite <- !app_assoc. cbn [app].
    rewrite <- !app_assoc. reflexivity.
  - exists bytes, m, done, rest. split; [| split; [assumption |]].
    + unfold stem. right. apply in_or_app. right. left. reflexivity.
    + rewrite extractions_stem, extractions_app, extractions_tar_ok, map_app
        by assumption.
      reflexivity.
Qed.

Lemma failed_extraction_ends_run_witness :
  let tar := fun src => if String.eqb src "aaaa.tar.gz"
                        then RunExitError 2 "exit status 2" else RunNil in
  let w := Sample.world 200 Sample.two_layers 200 tar RunNil in
  snd (run w Sample.argv) = Exited 1%Z /\
  extractions (fst (run w Sample.argv)) = [("aaaa.tar.gz", "/tmp/my-docker42")].
Proof.
  intros tar w.
  destruct (failed_extraction_ends_run w Sample.argv
              (fst (run w Sample.argv)) (snd (run w Sample.argv))
              "aaaa.tar.gz" "/tmp/my-docker42"
              (RunExitError 2 "exit status 2"))
    as (_ & _ & Ho & _).
  - apply surjective_pairing.
  - in_concrete.
  - discriminate.
  - split; [exact Ho | reflexivity].
Defined.

(** ** Isolation and the user's command *)

Lemma pull_event_not_isolation (layers : list Descriptor.t) (t : Trace) :
  Forall (pull_event layers) t -> Forall not_isolation t.
Proof.
  apply Forall_impl. intros e. destruct e; cbn; try contradiction;
    unfold not_isolation; cbn; auto.
Qed.

Lemma registry_event_not_isolation (t : Trace) :
  Forall registry_event t -> Forall not_isolation t.
Proof.
  apply Forall_impl. intros e. destruct e; cbn; try contradiction;
    unfold not_isolation; cbn; auto.
Qed.

Lemma tar_runs_not_isolation (dest : string) (names : list string) :
  Forall not_isolation (tar_ok_events names dest).
Proof.
  apply Forall_forall. intros e He. apply In_map_tar in He as (n & _ & ->).
  split; reflexivity.
Qed.

(** A run in which the user's command is started: the trace up to that
    point, and how the run ends from there. *)
Lemma reaches_command
  (w : World) (os_Args : list string) (t : Trace) (o : Outcome unit)
  (cmd : Cmd) (r : RunResult) :
  run w os_Args = (t, o) ->
  In (EvRun cmd r) t ->
  Stdin cmd = Some os_Stdin ->
  exists pre tempDir,
    t = pre
        ++ EvChroot tempDir None :: EvUnshare unshare_flags None
        :: EvRun cmd r :: fst (after_command tempDir r) /\
    o = snd (after_command tempDir r) /\
    Forall not_isolation pre /\
    In (EvMkdirTemp "" "my-docker" (Ok tempDir)) pre /\
    nth_error os_Args 3 = Some (Path cmd) /\
    Args cmd = skipn 4 os_Args.
Proof.
  intros H Hin Hstdin.
  apply run_MainRun in H.
  destruct H; locate Hin;
    try (unfold tar_Command in Hin; injection Hin as Hc _; subst cmd;
         discriminate Hstdin).
  injection Hin as <- <-.
  match goal with
  | |- context [stem ?d ?reg ?b ?m ?body (?pull ++ ?tar ++ _)] =>
      exists (stem d reg b m body (pull ++ tar)), d
  end.
  repeat split; try assumption.
  - unfold stem. cbn [app]. rewrite <- !app_assoc. cbn [app].
    rewrite <- !app_assoc. reflexivity.
  - unfold stem. constructor; [split; reflexivity |].
    apply Forall_app. split; [apply registry_event_not_isolation; assumption |].
    do 2 (constructor; [split; reflexivity |]).
    apply Forall_app. split.
    + eapply pull_event_not_isolation. eassumption.
    + apply tar_runs_not_isolation.
  - left. reflexivity.
Qed.

Lemma filter_none (f : Event -> bool) (t : Trace) :
  Forall (fun e => f e = false) t -> filter f t = [].
Proof.
  induction 1 as [| e t He _ IH]; [reflexivity |].
  cbn. rewrite He. exact IH.
Qed.

Lemma Sprintf_Err (err : string) :
  GoString.Sprintf "Err: %v" [err] = ("Err: " ++ err)%string.
Proof.
  cbn. do 5 f_equal. induction err as [| c err IH]; [reflexivity |].
  cbn. rewrite IH. reflexivity.
Qed.

(** C3. In every run that starts the user's command, the trace reads
    [pre ++ chroot :: unshare :: command :: post]: the root change into the
    temporary directory comes first, the unshare of the UTS, PID and mount
    namespaces second, both returned without error before the command is
    started, and neither call occurs anywhere else in the run. *)
Theorem isolation_precedes_command
  (w : World) (os_Args : list string) (t : Trace) (o : Outcome unit)
  (cmd : Cmd) (r : RunResult) :
  run w os_Args = (t, o) ->
  In (EvRun cmd r) t ->
  Stdin cmd = Some os_Stdin ->
  exists pre post tempDir,
    t = pre
        ++ EvChroot tempDir None
        :: EvUnshare (Z.lor (Z.lor CLONE_NEWUTS CLONE_NEWPID) CLONE_NEWNS) None
        :: EvRun cmd r :: post /\
    In (EvMkdirTemp "" "my-docker" (Ok tempDir)) pre /\
    Forall not_isolation pre /\
    Forall not_isolation post /\
    List.length (filter is_chroot t) = 1 /\
    List.length (filter is_unshare t) = 1.
Proof.
  intros H Hin Hstdin.
  destruct (reaches_command _ _ _ _ _ _ H Hin Hstdin)
    as (pre & tempDir & -> & _ & Hpre & Hmk & _ & _).
  assert (Hpost : Forall not_isolation (fst (after_command tempDir r))).
  { destruct r; repeat constructor. }
  exists pre, (fst (after_command tempDir r)), tempDir.
  repeat (split; [assumption || reflexivity |]).
  rewrite !filter_app. cbn.
  rewrite !(filter_none is_chroot), !(filter_none is_unshare).
  - split; reflexivity.
  - eapply Forall_impl; [| exact Hpost]. intros e He. apply He.
  - eapply Forall_impl; [| exact Hpre]. intros e He. apply He.
  - eapply Forall_impl; [| exact Hpost]. intros e He. apply He.
  - eapply Forall_impl; [| exact Hpre]. intros e He. apply He.
Qed.

(** C2. When the user's command was started and exited with a code in
    0..255, the exit status of the program is that code; when it could not
    be started, the program prints ["Err: "] and the cause as its last
    action and its exit status is 1. *)
Theorem exit_code_is_the_childs
  (w : World) (os_Args : list string) (t : Trace) (o : Outcome unit)
  (cmd : Cmd) (r : RunResult) :
  run w os_Args = (t, o) ->
  In (EvRun cmd r) t ->
  Stdin cmd = Some os_Stdin ->
  (forall code, child_exit_code r = Some code -> (0 <= code <= 255)%Z ->
                exit_status o = code) /\
  (forall err, r = RunOtherError err ->
               exit_status o = 1%Z /\
               exists pre, t = pre ++ [EvRun cmd r;
                                       EvPrint ("Err: " ++ err)%string]).
Proof.
  intros H Hin Hstdin.
  destruct (reaches_command _ _ _ _ _ _ H Hin Hstdin)
    as (pre & tempDir & -> & -> & _).
  split.
  - intros code Hcode Hrange. destruct r; cbn in Hcode; try discriminate.
    + injection Hcode as <-. reflexivity.
    + injection Hcode as <-. cbn [after_command snd exit_status].
      change 255%Z with (Z.ones 8). rewrite Z.land_ones by lia.
      apply Z.mod_small. lia.
  - intros err ->. split; [reflexivity |].
    cbn [after_command fst]. rewrite Sprintf_Err.
    exists (pre ++ [EvChroot tempDir None; EvUnshare unshare_flags None]).
    rewrite <- app_assoc. reflexivity.
Qed.

Lemma isolation_precedes_command_witness :
  let w := Sample.world 200 Sample.two_layers 200 Sample.tar_ok
             (RunExitError 7 "exit status 7") in
  let cmd := user_Command "/bin/sh" ["-c"; "exit 7"] in
  exists pre post tempDir,
    fst (run w Sample.argv)
    = pre
      ++ EvChroot tempDir None
      :: EvUnshare (Z.lor (Z.lor CLONE_NEWUTS CLONE_NEWPID) CLONE_NEWNS) None
      :: EvRun cmd (RunExitError 7 "exit status 7") :: post /\
    In (EvMkdirTemp "" "my-docker" (Ok tempDir)) pre /\
    Forall not_isolation pre /\
    Forall not_isolation post /\
    List.length (filter is_chroot (fst (run w Sample.argv))) = 1 /\
    List.length (filter is_unshare (fst (run w Sample.argv))) = 1.
Proof.
  intros w cmd.
  apply (isolation_precedes_command w Sample.argv _ (snd (run w Sample.argv))).
  - apply surjective_pairing.
  - in_concrete.
  - reflexivity.
Defined.

Lemma exit_code_is_the_childs_witness :
  let w := Sample.world 200 Sample.two_layers 200 Sample.tar_ok
             (RunExitError 7 "exit status 7") in
  exit_status (snd (run w Sample.argv)) = 7%Z.
Proof.
  intros w.
  refine (proj1 (exit_code_is_the_childs w Sample.argv
                   (fst (run w Sample.argv)) (snd (run w Sample.argv))
                   (user_Command "/bin/sh" ["-c"; "exit 7"])
                   (RunExitError 7 "exit status 7") _ _ _) 7%Z _ _).
  - apply surjective_pairing.
  - in_concrete.
  - reflexivity.
  - reflexivity.
  - lia.
Defined.

(** The other half of C2 on a concrete run: the command cannot be started. *)
Example child_not_started :
  let w := Sample.world 200 Sample.two_layers 200 Sample.tar_ok
             (RunOtherError "exec: no such file") in
  exit_status (snd (run w Sample.argv)) = 1%Z /\
  last (fst (run w Sample.argv)) (EvPrint "")
  = EvPrint "Err: exec: no such file".
Proof. vm_compute. split; reflexivity. Qed.

(** ** Cleanup of the temporary directory *)

(** C9. The removal of the temporary directory is deferred in [main], and
    [os.Exit] does not run deferred calls: a run that ends through
    [os.Exit] (every setup failure, and every command that exits with a
    code other than 0) never calls [os.RemoveAll]. *)
Theorem exit_skips_removal
  (w : World) (os_Args : list string) (t : Trace) (code : Z) :
  run w os_Args = (t, Exited code) ->
  forall path, ~ In (EvRemoveAll path) t.
Proof.
  intros H path Hin.
  apply run_MainRun in H.
  remember (Exited code) as o eqn:Ho.
  destruct H; try discriminate Ho; locate Hin.
  discriminate Ho.
Qed.

Lemma exit_skips_removal_witness :
  let w := Sample.world 401 Sample.two_layers 200 Sample.tar_ok RunNil in
  snd (run w Sample.argv) = Exited 1%Z /\
  In (EvMkdirTemp "" "my-docker" (Ok "/tmp/my-docker42"))
    (fst (run w Sample.argv)) /\
  forall path, ~ In (EvRemoveAll path) (fst (run w Sample.argv)).
Proof.
  intros w. split; [reflexivity |]. split; [in_concrete |].
  apply (exit_skips_removal w Sample.argv _ 1%Z). reflexivity.
Defined.

(** The same when an extraction fails, and when the command exits with 7:
    the directory is created and never removed. *)
Example removal_skipped_after_failed_extraction :
  let w := Sample.world 200 Sample.two_layers 200
             (fun _ => RunExitError 2 "exit status 2") RunNil in
  snd (run w Sample.argv) = Exited 1%Z /\
  removed_paths (fst (run w Sample.argv)) = [].
Proof. vm_compute. split; reflexivity. Qed.

Example removal_skipped_after_exit_7 :
  let w := Sample.world 200 Sample.two_layers 200 Sample.tar_ok
             (RunExitError 7 "exit status 7") in
  snd (run w Sample.argv) = Exited 7%Z /\
  removed_paths (fst (run w Sample.argv)) = [].
Proof. vm_compute. split; reflexivity. Qed.

(** It is called when [main] returns, that is when the command exits
    with 0. *)
Example removal_after_exit_0 :
  let w := Sample.world 200 Sample.two_layers 200 Sample.tar_ok RunNil in
  snd (run w Sample.argv) = Done tt /\
  removed_paths (fst (run w Sample.argv)) = ["/tmp/my-docker42"].
Proof. vm_compute. split; reflexivity. Qed.

(** ** Archive names *)

Lemma drop_algorithm_prefix (alg hex : string) :
  String.length alg = 6 ->
  GoString.drop 7 (alg ++ ":" ++ hex) = hex.
Proof.
  intros Hlen.
  do 6 (destruct alg as [| ? alg]; [discriminate Hlen |]).
  destruct alg; [reflexivity | discriminate Hlen].
Qed.

(** ** What [pullLayer] writes *)

(** Two answers of the world to the same call are the same answer. *)
Ltac agree Hx Hy :=
  lazymatch Hx with
  | Hy => fail
  | _ =>
      let E := fresh "E" in
      pose proof (eq_trans (eq_sym Hx) Hy) as E;
      first [ discriminate E | injection E as E; try subst | idtac ]
  end.

(** The whole of a download whose request was built and answered with
    status 200, for a digest of at least 7 bytes: the file is created under
    the digest's name, the body of the answer is copied into it, and both
    are closed; what is returned is the name, or the error of the step that
    failed. *)
Lemma pullLayer_writes (token image digest : string) (w : World) (h : Trace)
  (resp : Response) :
  let url := blob_url image digest in
  let req := {| Method := "GET"; URL := url;
                Header := [("Authorization", ("Bearer " ++ token)%string)] |} in
  let name := (GoString.drop 7 digest ++ ".tar.gz")%string in
  let sent := [EvNewRequest "GET" url None; EvDo req (Ok resp)] in
  w_NewRequest w "GET" url = None ->
  w_Do w (h ++ [EvNewRequest "GET" url None]) req = Ok resp ->
  StatusCode resp = 200%Z ->
  7 <= GoString.len digest ->
  (forall err,
      w_Create w (h ++ sent) name = Err err ->
      pullLayer token image digest w h
      = (sent ++ [EvCreate name (Err err);
                  EvPrint ("Error creating file: " ++ err ++ GoString.nl);
                  EvBodyClose (Body resp)],
         Done (Err err))) /\
  (forall fd,
      w_Create w (h ++ sent) name = Ok fd ->
      let file := {| Name := name; Fd := fd |} in
      (forall n,
          w_Copy w (h ++ sent ++ [EvCreate name (Ok fd)]) file (Body resp)
          = Ok n ->
          pullLayer token image digest w h
          = (sent ++ [EvCreate name (Ok fd);
                      EvCopy file (Body resp) (Ok n);
                      EvFileClose file; EvBodyClose (Body resp)],
             Done (Ok name))) /\
      (forall err,
          w_Copy w (h ++ sent ++ [EvCreate name (Ok fd)]) file (Body resp)
          = Err err ->
          pullLayer token image digest w h
          = (sent ++ [EvCreate name (Ok fd);
                      EvCopy file (Body resp) (Err err);
                      EvPrint ("Error copying file: " ++ err ++ GoString.nl);
                      EvFileClose file; EvBodyClose (Body resp)],
             Done (Err err)))).
Proof.
  intros url req name sent Hnew Hdo Hst Hlen.
  destruct (pullLayer token image digest w h) as [t o] eqn:H.
  unfold pullLayer in H.
  rewrite Sprintf_getLayerURL, Sprintf_Bearer in H.
  exec H.
  all: repeat match goal with
         | Hx : context [(_ ++ _) ++ _] |- _ =>
             rewrite <- app_assoc in Hx
         | Hx : context [_ ++ []] |- _ => rewrite app_nil_r in Hx
         end; cbn [app] in *.
  all: match goal with
       | Hx : w_NewRequest _ _ _ = _ |- _ => agree Hx Hnew
       end.
  all: match goal with
       | Hx : w_Do _ _ _ = _ |- _ => agree Hx Hdo
       end.
  all: leb_facts; unfold http_StatusOK in *; try contradiction; try lia.
  all: split; [intros err1 Hc | intros fd1 Hc; split; [intros n1 Hcp | intros err1 Hcp]].
  all: match goal with
       | Hx : w_Create _ _ _ = _ |- _ => agree Hx Hc
       end.
  all: try reflexivity.
  all: match goal with
       | Hx : w_Copy _ _ _ _ = _ |- _ => agree Hx Hcp
       end.
  all: reflexivity.
Qed.

Lemma blob_written_mono (image : string) (layers layers' : list Descriptor.t)
  (t t' : Trace) (e : Event) :
  (forall l, In l layers -> In l layers') ->
  (forall x, In x t -> In x t') ->
  blob_written image layers t e -> blob_written image layers' t' e.
Proof.
  intros Hl Ht. destruct e as [| | | req [resp | err] | | | | | | | | | | | |];
    cbn; auto.
  intros H Hst. destruct (H Hst) as (l & Hin & Hurl & Hw).
  exists l. split; [auto |]. split; [exact Hurl |].
  intros Hlen. destruct (Hw Hlen) as (r & Hc & Hcopy).
  exists r. split; [auto |].
  intros fd Hr. destruct (Hcopy fd Hr) as (c & Hcp). exists c. auto.
Qed.

Lemma pullLayer_blob_written (token image : string) (l : Descriptor.t)
  (w : World) (h t : Trace) (o : Outcome (result string)) :
  pullLayer token image (Descriptor.Digest l) w h = (t, o) ->
  Forall (blob_written image [l] t) t.
Proof.
  intros H. unfold pullLayer in H.
  rewrite Sprintf_getLayerURL in H.
  exec H; leb_facts; unfold http_StatusOK in *.
  all: repeat (constructor; [try exact I |]); try constructor.
  all: cbn; intros Hst; try contradiction.
  all: exists l; split; [left; reflexivity |]; split; [reflexivity |].
  all: intros Hlen; try lia.
  all: eexists; split; [right; right; left; reflexivity |].
  all: intros fd Hfd; try discriminate Hfd.
  all: apply Ok_inj in Hfd; subst fd.
  all: eexists; right; right; right; left; reflexivity.
Qed.

Lemma pullLayers_blob_written (token image : string) (w : World) :
  forall (layers : list Descriptor.t) (names : list string) (h t : Trace)
         (o : Outcome (list string)),
    pullLayers token image layers names w h = (t, o) ->
    Forall (blob_written image layers t) t.
Proof.
  induction layers as [| l layers IH]; intros names h t o H.
  - cbn in H. apply pair_equal_spec in H as [<- _]. constructor.
  - cbn [pullLayers] in H. unfold bind at 1 in H.
    destruct (pullLayer token image (Descriptor.Digest l) w h)
      as [t1 o1] eqn:Hone.
    apply pullLayer_blob_written in Hone.
    assert (Hone' : forall rest,
               Forall (blob_written image (l :: layers) (t1 ++ rest)) t1).
    { intros rest. eapply Forall_impl; [| exact Hone].
      intros e. apply blob_written_mono.
      - intros l' [<- | []]. left. reflexivity.
      - intros x Hx. apply in_or_app. left. exact Hx. }
    destruct o1 as [[name | err] | code | p].
    + destruct (pullLayers token image layers (names ++ [name]) w (h ++ t1))
        as [t2 o2] eqn:Hrest.
      apply pair_equal_spec in H as [<- _].
      apply IH in Hrest. apply Forall_app. split; [apply Hone' |].
      eapply Forall_impl; [| exact Hrest].
      intros e. apply blob_written_mono.
      * intros l' Hl'. right. exact Hl'.
      * intros x Hx. apply in_or_app. right. exact Hx.
    + exec H. apply Forall_app. split; [apply Hone' | repeat constructor].
    + apply pair_equal_spec in H as [<- _].
      rewrite <- (app_nil_r t1) at 1. apply Hone'.
    + apply pair_equal_spec in H as [<- _].
      rewrite <- (app_nil_r t1) at 1. apply Hone'.
Qed.

(** Every request of a run that was answered with status 200 is the
    request for the manifest, or the request for the blob of a layer of
    the manifest, which is then written to its file. *)
Lemma run_blob_written (w : World) (os_Args : list string) (t : Trace)
  (o : Outcome unit) (bytes : string) (manifest : ManifestResponse.t)
  (imageName : string) (req : Request) (resp : Response) :
  run w os_Args = (t, o) ->
  nth_error os_Args 2 = Some imageName ->
  In (EvUnmarshal bytes (Ok manifest)) t ->
  In (EvDo req (Ok resp)) t ->
  StatusCode resp = 200%Z ->
  URL req = manifest_url (fst (parseImage imageName))
              (snd (parseImage imageName)) \/
  blob_written (fst (parseImage imageName))
    (ManifestResponse.Layers manifest) t (EvDo req (Ok resp)).
Proof.
  intros H. exec H.
  all: try match goal with
         | Hp : pullLayers _ _ _ _ _ _ = (_, _) |- _ =>
             pose proof (pullLayers_blob_written _ _ _ _ _ _ _ _ Hp)
               as Hblob
         end.
  all: loops; clear_answers; tidy.
  all: intros Hargs Hman Hdo Hst; try discriminate Hargs.
  all: try (injection Hargs as <-).
  all: find_in_run Hman.
  all: injection Hman as <- <-.
  all: match goal with
       | Hp : parseImage _ = _ |- _ => rewrite Hp; cbn [fst snd]
       end.
  all: split_in Hdo; try discriminate Hdo.
  all: try (left; injection Hdo as <- _; apply Sprintf_getManifestURL).
  all: try (apply In_map_tar in Hdo as (? & ? & Hdo); discriminate Hdo).
  all: right.
  all: match goal with
       | Hb : Forall (blob_written _ _ ?t0) ?t0, Hi : In _ ?t0 |- _ =>
           rewrite Forall_forall in Hb; apply Hb in Hi;
           eapply blob_written_mono; [| | exact Hi];
           [ auto | intros ev Hev; find_in ]
       end.
Qed.

(** ** Names without a directory *)

Lemma contains_byte_app (c : ascii) (a b : string) :
  GoString.contains_byte c (a ++ b)
  = GoString.contains_byte c a || GoString.contains_byte c b.
Proof.
  induction a as [| x a IH]; [reflexivity |].
  cbn [append GoString.contains_byte]. rewrite IH. apply orb_assoc.
Qed.

Lemma contains_byte_drop (c : ascii) (n : nat) :
  forall s,
    GoString.contains_byte c s = false ->
    GoString.contains_byte c (GoString.drop n s) = false.
Proof.
  induction n as [| n IH]; intros s H; [destruct s; exact H |].
  destruct s as [| x s]; [reflexivity |].
  cbn [GoString.contains_byte] in H. apply orb_false_iff in H as [_ H].
  cbn [GoString.drop]. apply IH. exact H.
Qed.

(** The archive of a digest without a slash has no directory part. *)
Lemma layer_file_no_slash (digest : string) :
  GoString.contains_byte "/" digest = false ->
  GoString.contains_byte "/" (layer_file digest) = false /\
  forall dir rest, layer_file digest <> (dir ++ "/" ++ rest)%string.
Proof.
  intros H.
  assert (Hname : GoString.contains_byte "/" (layer_file digest) = false).
  { unfold layer_file. rewrite contains_byte_app.
    rewrite (contains_byte_drop _ _ _ H). reflexivity. }
  split; [exact Hname |].
  intros dir rest Heq. rewrite Heq, contains_byte_app in Hname.
  apply orb_false_iff in Hname as [_ Hname]. discriminate Hname.
Qed.

(** C7, as the code has it. [pullLayer] names the file after the digest
    without its first 7 bytes, then [".tar.gz"]: when the request for a
    blob is built and answered with status 200 and the digest has at least
    7 bytes, the file of that name is created and the body of the answer
    copied into it, and the name is returned.  In a run, every file created
    is named so after a layer of the manifest; every request answered with
    status 200 is the manifest's or that of a layer, whose file is then
    created and, if it could be, filled from the body of that answer; and
    when no step fails every layer of the manifest is so written.  For a
    digest [algorithm:hexdigest] whose algorithm name has 6 characters the
    name is [hexdigest.tar.gz].  When no digest has a slash the names have
    no directory part: the files are entries of the working directory, not
    of the temporary directory.  The program never removes them: the only
    path it ever passes to [os.RemoveAll] is the temporary directory. *)
Theorem layer_archive_name
  (w : World) (os_Args : list string) (t : Trace) (o : Outcome unit)
  (bytes : string) (manifest : ManifestResponse.t) (imageName : string) :
  run w os_Args = (t, o) ->
  nth_error os_Args 2 = Some imageName ->
  In (EvUnmarshal bytes (Ok manifest)) t ->
  let image := fst (parseImage imageName) in
  let layers := ManifestResponse.Layers manifest in
  (* one download, in any world *)
  (forall token image digest w h resp fd n,
      let url := blob_url image digest in
      let req := {| Method := "GET"; URL := url;
                    Header := [("Authorization",
                                ("Bearer " ++ token)%string)] |} in
      let name := (GoString.drop 7 digest ++ ".tar.gz")%string in
      let file := {| Name := name; Fd := fd |} in
      let sent := [EvNewRequest "GET" url None; EvDo req (Ok resp)] in
      w_NewRequest w "GET" url = None ->
      w_Do w (h ++ [EvNewRequest "GET" url None]) req = Ok resp ->
      StatusCode resp = 200%Z ->
      7 <= GoString.len digest ->
      w_Create w (h ++ sent) name = Ok fd ->
      w_Copy w (h ++ sent ++ [EvCreate name (Ok fd)]) file (Body resp)
      = Ok n ->
      pullLayer token image digest w h
      = (sent ++ [EvCreate name (Ok fd); EvCopy file (Body resp) (Ok n);
                  EvFileClose file; EvBodyClose (Body resp)],
         Done (Ok name)))
  /\
  (* the files of the run *)
  (forall name r,
      In (EvCreate name r) t ->
      exists l, In l layers /\
                7 <= GoString.len (Descriptor.Digest l) /\
                name = (GoString.drop 7 (Descriptor.Digest l) ++ ".tar.gz")%string)
  /\
  (forall req resp,
      In (EvDo req (Ok resp)) t ->
      StatusCode resp = 200%Z ->
      URL req = manifest_url image (snd (parseImage imageName)) \/
      exists l,
        In l layers /\
        URL req = blob_url image (Descriptor.Digest l) /\
        (7 <= GoString.len (Descriptor.Digest l) ->
         exists r,
           In (EvCreate (layer_file (Descriptor.Digest l)) r) t /\
           forall fd,
             r = Ok fd ->
             exists c,
               In (EvCopy {| Name := layer_file (Descriptor.Digest l);
                             Fd := fd |} (Body resp) c) t))
  /\
  ((forall e, In e t -> step_failed e = false) ->
   (forall l, In l layers -> 7 <= GoString.len (Descriptor.Digest l)) ->
   forall l, In l layers -> written image t l)
  /\
  (forall alg hex,
      String.length alg = 6 ->
      layer_file (alg ++ ":" ++ hex) = (hex ++ ".tar.gz")%string)
  /\
  ((forall l, In l layers ->
              GoString.contains_byte "/" (Descriptor.Digest l) = false) ->
   forall name r,
     In (EvCreate name r) t ->
     GoString.contains_byte "/" name = false /\
     forall dir rest, name <> (dir ++ "/" ++ rest)%string)
  /\
  (forall path,
      In (EvRemoveAll path) t ->
      In (EvMkdirTemp "" "my-docker" (Ok path)) t).
Proof.
  intros H Hargs Hman image layers. subst image layers.
  assert (Hfiles : forall name r,
             In (EvCreate name r) t ->
             exists l, In l (ManifestResponse.Layers manifest) /\
                       7 <= GoString.len (Descriptor.Digest l) /\
                       name = layer_file (Descriptor.Digest l)).
  { intros name r Hc. apply run_MainRun in H.
    destruct H; locate Hman; injection Hman as <- <-; locate Hc; exact Hc. }
  split; [| split; [| split; [| split; [| split; [| split]]]]].
  - intros token image digest w' h resp fd n url req name file sent
      Hnew Hdo Hst Hlen Hc Hcp.
    destruct (pullLayer_writes token image digest w' h resp
                Hnew Hdo Hst Hlen) as [_ Hok].
    exact (proj1 (Hok fd Hc) n Hcp).
  - exact Hfiles.
  - intros req resp Hdo Hst.
    destruct (run_blob_written _ _ _ _ _ _ _ _ _ H Hargs Hman Hdo Hst)
      as [Hm | Hb]; [left; exact Hm | right; exact (Hb Hst)].
  - intros Hno Hlen.
    exact (proj2 (unfailing_run _ _ _ _ _ _ H Hman Hno Hlen) _ Hargs).
  - intros alg hex Hlen. unfold layer_file.
    rewrite drop_algorithm_prefix by exact Hlen. reflexivity.
  - intros Hslash name r Hc.
    destruct (Hfiles name r Hc) as (l & Hl & _ & ->).
    apply layer_file_no_slash, Hslash, Hl.
  - intros path Hr. apply run_MainRun in H.
    destruct H; locate Hr; injection Hr as <-; left; reflexivity.
Qed.

Lemma layer_archive_name_witness :
  let w := Sample.world 200 Sample.two_layers 200 Sample.tar_ok RunNil in
  written "alpine" (fst (run w Sample.argv)) (Sample.layer "sha256:bbbb").
Proof.
  intros w.
  refine (proj1 (proj2 (proj2 (proj2
            (layer_archive_name w Sample.argv
               (fst (run w Sample.argv)) (snd (run w Sample.argv))
               "{...}" Sample.two_layers "alpine:latest" _ _ _))))
            _ _ (Sample.layer "sha256:bbbb") _).
  - apply surjective_pairing.
  - reflexivity.
  - in_concrete.
  - intros e He. each_event He.
  - intros l Hl. each_event Hl.
  - right. left. reflexivity.
Defined.

(** C7 as stated fails on a digest whose algorithm name is not 6
    characters long: the file is not named by the hex digest; and the file
    is created outside the temporary directory, the only path the run
    removes. *)
Lemma md5_archive_name :
  let digest := "md5:d41d8cd98f00b204e9800998ecf8427e" in
  let w := Sample.world 200 (Sample.manifest [digest]) 200 Sample.tar_ok
             RunNil in
  spec_strip_algorithm digest = "d41d8cd98f00b204e9800998ecf8427e" /\
  created_files (fst (run w Sample.argv))
  = ["d8cd98f00b204e9800998ecf8427e.tar.gz"] /\
  removed_paths (fst (run w Sample.argv)) = ["/tmp/my-docker42"] /\
  String.prefix "/tmp/my-docker42" "d8cd98f00b204e9800998ecf8427e.tar.gz"
  = false.
Proof. vm_compute. repeat split. Qed.

(** With a sha256 digest the name is the hex digest, and the file still
    lies outside the directory that is removed. *)
Example sha256_archive_name :
  let w := Sample.world 200 Sample.two_layers 200 Sample.tar_ok RunNil in
  created_files (fst (run w Sample.argv)) = ["aaaa.tar.gz"; "bbbb.tar.gz"] /\
  removed_paths (fst (run w Sample.argv)) = ["/tmp/my-docker42"].
Proof. vm_compute. split; reflexivity. Qed.

(** ** Short digests *)



(** The run of that manifest when every blob request is answered 200: the
    panic ends the program, after the deferred removal. *)
Example short_digest_run_panics :
  let w := Sample.world 200 (Sample.manifest ["abc"]) 200 Sample.tar_ok
             RunNil in
  snd (run w Sample.argv) = Panicked (SliceBoundsOutOfRange 7 3) /\
  exit_status (snd (run w Sample.argv)) = 2%Z /\
  last (fst (run w Sample.argv)) (EvPrint "") = EvRemoveAll "/tmp/my-docker42".
Proof. vm_compute. repeat split. Qed.


(** * Further properties of [main.go] *)

(** ** [parseImage] on any argument *)

(** X1. Whatever the argument, [parseImage] returns fields without a
    colon; without a colon in the argument they are the argument itself
    and ["latest"]; with one, the argument starts with [name:tag], and
    what follows the tag, if anything, starts with another colon and is
    ignored. *)
Theorem parseImage_fields (image name tag : string) :
  parseImage image = (name, tag) ->
  GoString.contains_byte ":" name = false /\
  GoString.contains_byte ":" tag = false /\
  (GoString.contains_byte ":" image = false ->
   name = image /\ tag = "latest") /\
  (GoString.contains_byte ":" image = true ->
   exists rest,
     image = (name ++ ":" ++ tag ++ rest)%string /\
     (rest = EmptyString \/ exists rest', rest = String ":" rest')).
Proof.
  unfold parseImage, GoString.Split.
  destruct (split_fields image) as (f & fs & -> & Hf & Hno & Hyes).
  destruct (GoString.contains_byte ":" image) eqn:Hc.
  - destruct (Hyes eq_refl) as (rest & -> & ->).
    destruct (split_fields rest) as (g & gs & -> & Hg & Hgno & Hgyes).
    intros H. injection H as <- <-.
    repeat split; try assumption; try discriminate.
    intros _.
    destruct (GoString.contains_byte ":" rest) eqn:Hr.
    + destruct (Hgyes eq_refl) as (rest' & -> & _).
      exists (String ":" rest'). split; [reflexivity | eauto].
    + destruct (Hgno eq_refl) as [-> _].
      exists EmptyString. split; [| auto].
      cbn [append]. rewrite append_empty_r. reflexivity.
  - destruct (Hno eq_refl) as [-> ->].
    intros H. injection H as <- <-.
    repeat split; try assumption; try reflexivity; discriminate.
Qed.

Lemma parseImage_fields_witness :
  exists rest,
    "alpine:3.18:x" = ("alpine" ++ ":" ++ "3.18" ++ rest)%string /\
    (rest = EmptyString \/ exists rest', rest = String ":" rest').
Proof.
  exact (proj2 (proj2 (proj2 (parseImage_fields "alpine:3.18:x" "alpine" "3.18"
                                eq_refl))) eq_refl).
Defined.

(** X2. Fields after the second colon are dropped: [name:tag:rest] parses
    like [name:tag], whatever [rest] is. *)
Theorem parseImage_drops_extra_fields (name tag rest : string) :
  GoString.contains_byte ":" name = false ->
  GoString.contains_byte ":" tag = false ->
  parseImage (name ++ ":" ++ tag ++ ":" ++ rest) = (name, tag).
Proof.
  intros Hname Htag. unfold parseImage, GoString.Split. cbn [append].
  rewrite (split_at_first_colon _ _ Hname), (split_at_first_colon _ _ Htag).
  reflexivity.
Qed.

Lemma parseImage_drops_extra_fields_witness :
  parseImage "alpine@sha256:0123:4567" = ("alpine@sha256", "0123").
Proof.
  exact (parseImage_drops_extra_fields "alpine@sha256" "0123" "4567"
           eq_refl eq_refl).
Defined.

(** ** The registry client, call by call *)

(** X3. [getToken] makes one request, a GET of the token URL for the
    image.  Only when the answer has status 200 does it read the body, and
    then it closes it afterwards; on any other status the body is neither
    read nor closed, and the error returned is ["Error getting token: "]
    followed by the status text. *)
Theorem getToken_trace
  (image : string) (w : World) (h t : Trace) (o : Outcome (result string)) :
  getToken image w h = (t, o) ->
  exists r,
    match r with
    | Err err => t = [EvGet (token_url image) r] /\ o = Done (Err err)
    | Ok resp =>
        if (StatusCode resp =? 200)%Z
        then exists d,
            t = [EvGet (token_url image) r; EvDecode (Body resp) d;
                 EvBodyClose (Body resp)] /\
            o = Done match d with
                     | Ok tokenResponse => Ok (Token tokenResponse)
                     | Err err => Err err
                     end
        else t = [EvGet (token_url image) r] /\
             o = Done (Err ("Error getting token: " ++ Status resp)%string)
    end.
Proof.
  intros H. rewrite <- Sprintf_getTokenURL. exec H.
  all: match goal with
       | |- context [EvGet _ (Ok ?a)] => exists (Ok a)
       | |- context [EvGet _ (Err ?e)] => exists (Err e)
       end; cbn beta iota.
  all: try match goal with
         | Hs : (StatusCode _ =? _)%Z = _ |- _ =>
             unfold http_StatusOK in Hs; rewrite Hs
         end.
  - eexists (Ok _). split; reflexivity.
  - eexists (Err _). split; reflexivity.
  - split; [reflexivity |]. cbn. rewrite append_empty_r. reflexivity.
  - split; reflexivity.
Qed.

Lemma getToken_trace_witness :
  let w := Sample.world 401 Sample.two_layers 200 Sample.tar_ok RunNil in
  getToken "library/alpine" w []
  = ([EvGet (token_url "library/alpine") (Ok (Sample.response 401 0))],
     Done (Err "Error getting token: 401 Unauthorized")).
Proof.
  intros w.
  destruct (getToken_trace "library/alpine" w []
              (fst (getToken "library/alpine" w []))
              (snd (getToken "library/alpine" w []))
              (surjective_pairing _)) as (r & Hr).
  reflexivity.
Defined.

(** X4. Whatever [getManifest] sends is a GET of the manifest URL of the
    image and tag, with exactly two headers: the bearer token as
    [Authorization] and the manifest v2 media type as [Accept]; and it
    sends at most one request. *)
Theorem getManifest_request
  (token image tag : string) (w : World) (h t : Trace)
  (o : Outcome (result ManifestResponse.t)) :
  getManifest token image tag w h = (t, o) ->
  (forall req r,
      In (EvDo req r) t ->
      req = {| Method := "GET";
               URL := manifest_url image tag;
               Header := [("Accept", contentTypeHeader);
                          ("Authorization", ("Bearer " ++ token)%string)] |})
  /\ List.length (filter is_request t) <= 1.
Proof.
  intros H. rewrite <- Sprintf_getManifestURL, <- Sprintf_Bearer.
  exec H.
  all: split; [intros req r Hin; split_in Hin; try discriminate Hin;
                injection Hin as <- _; reflexivity
              | cbn; lia].
Qed.

Lemma getManifest_request_witness :
  let w := Sample.world 200 Sample.two_layers 200 Sample.tar_ok RunNil in
  filter is_request (fst (getManifest "t0k3n" "alpine" "latest" w []))
  = [EvDo {| Method := "GET";
             URL := manifest_url "alpine" "latest";
             Header := [("Accept", contentTypeHeader);
                        ("Authorization", "Bearer t0k3n")] |}
       (Ok (Sample.response 200 1))].
Proof.
  intros w.
  pose proof (getManifest_request "t0k3n" "alpine" "latest" w []
                (fst (getManifest "t0k3n" "alpine" "latest" w []))
                (snd (getManifest "t0k3n" "alpine" "latest" w []))
                (surjective_pairing _)) as _.
  reflexivity.
Defined.



(** ** [pullLayer], call by call *)

(** X6. Whatever [pullLayer] sends is a GET of the blob URL of the image
    and digest whose only header is the bearer token as [Authorization]
    (no [Accept]); and it sends at most one request. *)
Theorem pullLayer_request
  (token image digest : string) (w : World) (h t : Trace)
  (o : Outcome (result string)) :
  pullLayer token image digest w h = (t, o) ->
  (forall req r,
      In (EvDo req r) t ->
      req = {| Method := "GET";
               URL := blob_url image digest;
               Header := [("Authorization", ("Bearer " ++ token)%string)] |})
  /\ List.length (filter is_request t) <= 1.
Proof.
  intros H. rewrite <- Sprintf_getLayerURL, <- Sprintf_Bearer.
  exec H.
  all: split; [intros req r Hin; split_in Hin; try discriminate Hin;
                injection Hin as <- _; reflexivity
              | cbn; lia].
Qed.

Lemma pullLayer_request_witness :
  let w := Sample.world 200 Sample.two_layers 200 Sample.tar_ok RunNil in
  filter is_request (fst (pullLayer "t0k3n" "alpine" "sha256:aaaa" w []))
  = [EvDo {| Method := "GET";
             URL := blob_url "alpine" "sha256:aaaa";
             Header := [("Authorization", "Bearer t0k3n")] |}
       (Ok (Sample.response 200 2))].
Proof.
  intros w.
  pose proof (pullLayer_request "t0k3n" "alpine" "sha256:aaaa" w []
                (fst (pullLayer "t0k3n" "alpine" "sha256:aaaa" w []))
                (snd (pullLayer "t0k3n" "alpine" "sha256:aaaa" w []))
                (surjective_pairing _)) as _.
  reflexivity.
Defined.

(** X7. What [pullLayer] opens it closes, in reverse order.  The body of
    the answer is closed exactly when its status was 200, also when the
    function then fails or panics; a file that was created is closed, and
    only such a file; and when a file was closed, its close and the close
    of the body are the last two events, in that order. *)
Theorem pullLayer_closes
  (token image digest : string) (w : World) (h t : Trace)
  (o : Outcome (result string)) :
  pullLayer token image digest w h = (t, o) ->
  (forall req resp,
      In (EvDo req (Ok resp)) t ->
      (StatusCode resp = 200%Z <-> In (EvBodyClose (Body resp)) t)) /\
  (forall name fd,
      In (EvCreate name (Ok fd)) t <->
      In (EvFileClose {| Name := name; Fd := fd |}) t) /\
  (forall f,
      In (EvFileClose f) t ->
      exists pre body, t = pre ++ [EvFileClose f; EvBodyClose body]).
Proof.
  intros H. exec H; leb_facts; unfold http_StatusOK in *.
  all: split; [| split].
  (* the body *)
  all: try (intros req resp Hdo; split_in Hdo; try discriminate Hdo;
            injection Hdo as _ <-;
            (split;
             [ intros Hst; first [solve [find_event] | contradiction]
             | intros Hc; first [assumption | split_in Hc; discriminate Hc] ])).
  (* the file, created and closed *)
  all: try (intros name fd; split; intros Hin; split_in Hin;
            try discriminate Hin;
            first [ injection Hin as <- <-; solve [find_event] ]).
  (* the last two events *)
  all: intros f Hin; split_in Hin; try discriminate Hin;
    injection Hin as <-;
    match goal with
    | |- exists pre body, ?a :: ?b :: ?c :: ?rest = _ =>
        first
          [ exists [a; b; c]; eexists; reflexivity
          | exists [a; b; c; hd a rest]; eexists; reflexivity
          | exists [a; b; c; hd a rest; hd a (tl rest)]; eexists; reflexivity ]
    end.
Qed.

Lemma pullLayer_closes_witness :
  let w := Sample.world 200 Sample.two_layers 200 Sample.tar_ok RunNil in
  exists pre body,
    fst (pullLayer "t0k3n" "alpine" "sha256:aaaa" w [])
    = pre ++ [EvFileClose {| Name := "aaaa.tar.gz"; Fd := 3 |};
              EvBodyClose body].
Proof.
  intros w.
  refine (proj2 (proj2 (pullLayer_closes "t0k3n" "alpine" "sha256:aaaa" w []
                          (fst (pullLayer "t0k3n" "alpine" "sha256:aaaa" w []))
                          (snd (pullLayer "t0k3n" "alpine" "sha256:aaaa" w []))
                          (surjective_pairing _))) _ _).
  in_concrete.
Defined.

Lemma Done_Ok_inj {A} (a b : A) :
  @Done (result A) (Ok a) = Done (Ok b) -> a = b.
Proof. intros H. injection H as H. exact H. Qed.

Lemma Done_Err_inj {A} (a b : error) :
  @Done (result A) (Err a) = Done (Err b) -> a = b.
Proof. intros H. injection H as H. exact H. Qed.

Lemma Sprintf_getting_layer (status : string) :
  GoString.Sprintf ("Error getting layer: %v" ++ GoString.nl) [status]
  = ("" ++ GoString.Sprintf "Error getting layer: %v" [status]
     ++ GoString.nl)%string.
Proof. cbn. rewrite append_empty_r. reflexivity. Qed.

(** X8. Every error [pullLayer] returns has been printed before it
    returns: some printed line ends with the text of the error and a
    newline.  A successful call prints nothing, and the file whose name it
    returns was filled from the body of the answer. *)
Theorem pullLayer_reports
  (token image digest : string) (w : World) (h t : Trace)
  (o : Outcome (result string)) :
  pullLayer token image digest w h = (t, o) ->
  (forall err,
      o = Done (Err err) ->
      exists what, In (EvPrint (what ++ err ++ GoString.nl)%string) t) /\
  (forall name,
      o = Done (Ok name) ->
      (forall s, ~ In (EvPrint s) t) /\
      exists req resp fd n,
        In (EvDo req (Ok resp)) t /\
        In (EvCopy {| Name := name; Fd := fd |} (Body resp) (Ok n)) t).
Proof.
  intros H. exec H.
  all: split;
    [ intros err0 He; try discriminate He;
      apply Done_Err_inj in He; subst err0
    | intros name Hn; try discriminate Hn;
      apply Done_Ok_inj in Hn; subst name ].
  all: try (first
              [ exists "Error creating request: "%string; solve [find_event]
              | exists "Error sending request: "%string; solve [find_event]
              | exists "Error creating file: "%string; solve [find_event]
              | exists "Error copying file: "%string; solve [find_event]
              | exists EmptyString; rewrite <- Sprintf_getting_layer;
                solve [find_event] ]).
  split.
  - intros s Hs. split_in Hs; discriminate Hs.
  - do 4 eexists. split; solve [find_event].
Qed.

Lemma pullLayer_reports_witness :
  let w := Sample.world 200 Sample.two_layers 404 Sample.tar_ok RunNil in
  exists what,
    In (EvPrint (what ++ "Error getting layer: 404 Not Found" ++ GoString.nl)%string)
      (fst (pullLayer "t0k3n" "alpine" "sha256:aaaa" w [])).
Proof.
  intros w.
  refine (proj1 (pullLayer_reports "t0k3n" "alpine" "sha256:aaaa" w []
                   (fst (pullLayer "t0k3n" "alpine" "sha256:aaaa" w []))
                   (snd (pullLayer "t0k3n" "alpine" "sha256:aaaa" w []))
                   (surjective_pairing _)) _ _).
  reflexivity.
Defined.

(** ** [extractTar] *)

(** X9. [extractTar] runs [tar -xzf src -C dest] once, with the standard
    output and error of the program and no standard input.  It never
    returns an error: when [tar] succeeds it returns nil, and when [tar]
    fails, or cannot be started, it prints ["Error while applying layer: "]
    with the cause and ends the process with [os.Exit(1)] itself. *)
Theorem extractTar_outcome
  (src dest : string) (w : World) (h t : Trace) (o : Outcome (option error)) :
  extractTar src dest w h = (t, o) ->
  exists r,
    let run_tar :=
      EvRun {| Path := "tar"; Args := ["-xzf"; src; "-C"; dest];
               Stdin := None; Stdout := Some os_Stdout;
               Stderr := Some os_Stderr |} r in
    match run_failed r with
    | None => t = [run_tar] /\ o = Done None
    | Some err =>
        t = [run_tar;
             EvPrint ("Error while applying layer:  " ++ err ++ GoString.nl)%string]
        /\ o = Exited 1%Z
    end.
Proof.
  intros H. exec H.
  all: match goal with
       | Hr : run_failed ?x = _ |- _ => exists x; cbn zeta; rewrite Hr
       end.
  all: split; reflexivity.
Qed.

Lemma extractTar_outcome_witness :
  let w := Sample.world 200 Sample.two_layers 200
             (fun _ => RunOtherError "exec: tar: not found") RunNil in
  snd (extractTar "aaaa.tar.gz" "/tmp/my-docker42" w []) = Exited 1%Z.
Proof.
  intros w.
  destruct (extractTar_outcome "aaaa.tar.gz" "/tmp/my-docker42" w []
              (fst (extractTar "aaaa.tar.gz" "/tmp/my-docker42" w []))
              (snd (extractTar "aaaa.tar.gz" "/tmp/my-docker42" w []))
              (surjective_pairing _)) as (r & Hr).
  reflexivity.
Defined.

(** ** [main]: arguments, order of the phases, the command *)

Lemma stem_app (tempDir : string) (reg : Trace) (bytes : string)
  (m : ManifestResponse.t) (body : ReadCloser) (pull rest : Trace) :
  stem tempDir reg bytes m body (pull ++ rest)
  = stem tempDir reg bytes m body pull ++ rest.
Proof.
  unfold stem. cbn [app]. rewrite <- app_assoc. cbn [app]. reflexivity.
Qed.

(** X10. With fewer than four arguments [main] panics on [os.Args[3]]
    before it does anything: no call is made and the exit status is 2.
    With four or more it never panics on an index, and its first call
    creates the temporary directory. *)
Theorem main_needs_four_arguments
  (w : World) (os_Args : list string) (t : Trace) (o : Outcome unit) :
  run w os_Args = (t, o) ->
  (List.length os_Args < 4 ->
   t = [] /\ o = Panicked (IndexOutOfRange 3 (List.length os_Args)) /\
   exit_status o = 2%Z) /\
  (4 <= List.length os_Args ->
   (forall i n, o <> Panicked (IndexOutOfRange i n)) /\
   exists r rest, t = EvMkdirTemp "" "my-docker" r :: rest).
Proof.
  intros H. split.
  - intros Hlen. unfold run, main in H.
    assert (Hnone : nth_error os_Args 3 = None) by (apply nth_error_None; lia).
    rewrite Hnone in H. apply pair_equal_spec in H as [<- <-].
    repeat split.
  - intros Hlen.
    assert (Hsome : nth_error os_Args 3 <> None)
      by (apply nth_error_Some; lia).
    split.
    + intros i n Ho. apply run_MainRun in H.
      destruct H; try discriminate Ho; try contradiction.
      destruct r; discriminate Ho.
    + apply run_MainRun in H.
      destruct H; try contradiction; unfold stem; eauto.
Qed.

Lemma main_needs_four_arguments_witness :
  let w := Sample.world 200 Sample.two_layers 200 Sample.tar_ok RunNil in
  run w ["your_docker"; "run"; "alpine"]
  = ([], Panicked (IndexOutOfRange 3 3)).
Proof.
  intros w.
  destruct (proj1 (main_needs_four_arguments w ["your_docker"; "run"; "alpine"]
                     (fst (run w ["your_docker"; "run"; "alpine"]))
                     (snd (run w ["your_docker"; "run"; "alpine"]))
                     (surjective_pairing _)))
    as (Ht & Ho & _).
  - cbn. lia.
  - reflexivity.
Defined.

Lemma registry_event_quiet (f : Event -> bool) (t : Trace) :
  (forall e, registry_event e -> f e = false) ->
  Forall registry_event t -> Forall (fun e => f e = false) t.
Proof. intros Hf. apply Forall_impl. exact Hf. Qed.

Lemma pull_event_quiet (f : Event -> bool) (layers : list Descriptor.t)
  (t : Trace) :
  (forall e, pull_event layers e -> f e = false) ->
  Forall (pull_event layers) t -> Forall (fun e => f e = false) t.
Proof. intros Hf. apply Forall_impl. exact Hf. Qed.

Lemma tar_ok_events_quiet (f : Event -> bool) (names : list string)
  (dest : string) :
  (forall n, f (EvRun (tar_Command n dest) RunNil) = false) ->
  Forall (fun e => f e = false) (tar_ok_events names dest).
Proof.
  intros Hf. apply Forall_forall. intros e He.
  apply In_map_tar in He as (n & _ & ->). apply Hf.
Qed.



Lemma registry_not_command (reg : Trace) :
  Forall registry_event reg -> Forall (fun e => is_command e = false) reg.
Proof.
  apply registry_event_quiet.
  intros e. destruct e; cbn; try contradiction; reflexivity.
Qed.

Lemma pull_not_command (layers : list Descriptor.t) (pull : Trace) :
  Forall (pull_event layers) pull ->
  Forall (fun e => is_command e = false) pull.
Proof.
  apply pull_event_quiet.
  intros e. destruct e; cbn; try contradiction; reflexivity.
Qed.

Lemma stem_no_command (tempDir : string) (reg : Trace) (bytes : string)
  (m : ManifestResponse.t) (body : ReadCloser) (pull : Trace) :
  Forall registry_event reg ->
  Forall (pull_event (ManifestResponse.Layers m)) pull ->
  filter is_command (stem tempDir reg bytes m body pull) = [].
Proof.
  intros Hreg Hpull. apply filter_none. unfold stem.
  constructor; [reflexivity |].
  apply Forall_app. split; [apply registry_not_command; assumption |].
  do 2 (constructor; [reflexivity |]).
  eapply pull_not_command. eassumption.
Qed.

(** X12. The command [main] runs is the one of the command line: its path
    is [os.Args[3]], its arguments are [os.Args[4:]] unchanged, and the
    standard input, output and error of the program are attached to it.
    A run starts it at most once, and it is the only command with a
    standard input that the run starts. *)
Theorem command_is_passed_verbatim
  (w : World) (os_Args : list string) (t : Trace) (o : Outcome unit)
  (cmd : Cmd) (r : RunResult) :
  run w os_Args = (t, o) ->
  In (EvRun cmd r) t ->
  Stdin cmd <> None ->
  (exists command,
      nth_error os_Args 3 = Some command /\
      cmd = {| Path := command; Args := skipn 4 os_Args;
               Stdin := Some os_Stdin; Stdout := Some os_Stdout;
               Stderr := Some os_Stderr |}) /\
  filter is_command t = [EvRun cmd r].
Proof.
  intros H Hin Hstdin.
  apply run_MainRun in H.
  destruct H; locate Hin;
    try (unfold tar_Command in Hin; injection Hin as Hc _; subst cmd;
         destruct (Hstdin eq_refl)).
  injection Hin as <- <-. split.
  - eexists. split; [eassumption | reflexivity].
  - rewrite !stem_app, !filter_app, stem_no_command by assumption.
    rewrite (filter_none is_command (tar_ok_events _ _))
      by (apply tar_ok_events_quiet; reflexivity).
    match goal with
    | |- context [after_command _ ?x] => destruct x; reflexivity
    end.
Qed.

Lemma command_is_passed_verbatim_witness :
  let w := Sample.world 200 Sample.two_layers 200 Sample.tar_ok
             (RunExitError 7 "exit status 7") in
  filter is_command (fst (run w Sample.argv))
  = [EvRun {| Path := "/bin/sh"; Args := ["-c"; "exit 7"];
              Stdin := Some os_Stdin; Stdout := Some os_Stdout;
              Stderr := Some os_Stderr |}
       (RunExitError 7 "exit status 7")].
Proof.
  intros w.
  refine (proj2 (command_is_passed_verbatim w Sample.argv
                   (fst (run w Sample.argv)) (snd (run w Sample.argv))
                   _ _ _ _ _)).
  - apply surjective_pairing.
  - in_concrete.
  - discriminate.
Defined.

(** X13. A run that does not start the user's command ends with exit
    status 1, or with 2 when it panicked; so an exit status of 0 is only
    ever the command's own. *)
Theorem no_command_no_success
  (w : World) (os_Args : list string) (t : Trace) (o : Outcome unit) :
  run w os_Args = (t, o) ->
  filter is_command t = [] ->
  (exit_status o = 1%Z /\ exists code, o = Exited code) \/
  (exit_status o = 2%Z /\ exists p, o = Panicked p).
Proof.
  intros H Hnone.
  apply run_MainRun in H.
  destruct H; try (left; split; [reflexivity | eexists; reflexivity]);
    try (right; split; [reflexivity | eexists; reflexivity]).
  rewrite !stem_app, !filter_app, stem_no_command in Hnone by assumption.
  rewrite (filter_none is_command (tar_ok_events _ _)) in Hnone
    by (apply tar_ok_events_quiet; reflexivity).
  discriminate Hnone.
Qed.

Lemma no_command_no_success_witness :
  let w := Sample.world 200 Sample.two_layers 404 Sample.tar_ok RunNil in
  (exit_status (snd (run w Sample.argv)) = 1%Z /\
   exists code, snd (run w Sample.argv) = Exited code) \/
  (exit_status (snd (run w Sample.argv)) = 2%Z /\
   exists p, snd (run w Sample.argv) = Panicked p).
Proof.
  intros w.
  apply (no_command_no_success w Sample.argv (fst (run w Sample.argv))).
  - apply surjective_pairing.
  - reflexivity.
Defined.

Lemma removed_paths_quiet (t : Trace) :
  Forall (fun e => is_removal e = false) t -> removed_paths t = [].
Proof.
  induction 1 as [| e t He _ IH]; [reflexivity |].
  destruct e; try discriminate He; exact IH.
Qed.

(** X14. When the temporary directory is removed, that is the last call
    of the run and the only removal; and when [main] then returns, the
    process has before that changed its root to that very directory. *)
Theorem removal_is_last
  (w : World) (os_Args : list string) (t : Trace) (o : Outcome unit)
  (path : string) :
  run w os_Args = (t, o) ->
  In (EvRemoveAll path) t ->
  exists pre,
    t = pre ++ [EvRemoveAll path] /\
    removed_paths pre = [] /\
    In (EvMkdirTemp "" "my-docker" (Ok path)) pre /\
    (o = Done tt -> In (EvChroot path None) pre).
Proof.
  intros H Hin.
  apply run_MainRun in H.
  destruct H; locate Hin; injection Hin as <-.
  - (* after a panic in the download loop *)
    rewrite stem_app. eexists. split; [reflexivity |].
    split; [| split; [left; reflexivity | discriminate]].
    apply removed_paths_quiet. unfold stem.
    constructor; [reflexivity |]. apply Forall_app. split.
    + eapply registry_event_quiet; [| eassumption].
      intros e. destruct e; cbn; try contradiction; reflexivity.
    + do 2 (constructor; [reflexivity |]).
      eapply pull_event_quiet; [| eassumption].
      intros e. destruct e; cbn; try contradiction; reflexivity.
  - (* after the command exited with 0 *)
    cbn [after_command fst].
    match goal with
    | |- context [stem ?d ?reg ?b ?m ?body (?pull ++ ?tar ++ [?c; ?u; ?x; _])] =>
        exists (stem d reg b m body (pull ++ tar ++ [c; u; x]))
    end.
    split.
    + rewrite !stem_app, <- !app_assoc. reflexivity.
    + split; [| split; [left; reflexivity |]].
      * apply removed_paths_quiet. unfold stem.
        constructor; [reflexivity |]. apply Forall_app. split.
        -- eapply registry_event_quiet; [| eassumption].
           intros e. destruct e; cbn; try contradiction; reflexivity.
        -- do 2 (constructor; [reflexivity |]).
           apply Forall_app. split.
           ++ eapply pull_event_quiet; [| eassumption].
              intros e. destruct e; cbn; try contradiction; reflexivity.
           ++ apply Forall_app. split;
                [apply tar_ok_events_quiet; reflexivity | repeat constructor].
      * intros _. rewrite !stem_app, !in_app_iff. right. right. left.
        reflexivity.
Qed.

Lemma removal_is_last_witness :
  let w := Sample.world 200 Sample.two_layers 200 Sample.tar_ok RunNil in
  exists pre,
    fst (run w Sample.argv) = pre ++ [EvRemoveAll "/tmp/my-docker42"] /\
    removed_paths pre = [] /\
    In (EvMkdirTemp "" "my-docker" (Ok "/tmp/my-docker42")) pre /\
    (snd (run w Sample.argv) = Done tt ->
     In (EvChroot "/tmp/my-docker42" None) pre).
Proof.
  intros w.
  apply (removal_is_last w Sample.argv).
  - apply surjective_pairing.
  - in_concrete.
Defined.

(** ** [main]: how failures are reported *)

(** X15. When the temporary directory cannot be created, [main] prints
    ["Error creating temporary directory: "] with the cause and exits with
    1; it does nothing else, in particular it sends no request. *)
Theorem no_temp_dir_no_run
  (w : World) (os_Args : list string) (t : Trace) (o : Outcome unit)
  (dir pattern : string) (err : error) :
  run w os_Args = (t, o) ->
  In (EvMkdirTemp dir pattern (Err err)) t ->
  t = [EvMkdirTemp "" "my-docker" (Err err);
       EvPrint ("Error creating temporary directory: " ++ err
                ++ GoString.nl)%string] /\
  o = Exited 1%Z.
Proof.
  intros H Hin.
  exec H; loops; clear_answers; tidy.
  all: find_in_run Hin.
  injection Hin as _ _ <-. split; reflexivity.
Qed.

Lemma no_temp_dir_no_run_witness :
  let w := {| w_MkdirTemp := fun _ _ _ => Err "mkdir /tmp: read-only file system";
              w_Get := fun _ _ => Err "unreachable";
              w_NewRequest := fun _ _ => None;
              w_Do := fun _ _ => Err "unreachable";
              w_Decode := fun _ _ => Err "unreachable";
              w_ReadAll := fun _ _ => Err "unreachable";
              w_Unmarshal := fun _ => Err "unreachable";
              w_Create := fun _ _ => Err "unreachable";
              w_Copy := fun _ _ _ => Err "unreachable";
              w_Run := fun _ _ => RunNil;
              w_Chroot := fun _ _ => None;
              w_Unshare := fun _ _ => None |} in
  snd (run w Sample.argv) = Exited 1%Z.
Proof.
  intros w.
  exact (proj2 (no_temp_dir_no_run w Sample.argv _ _ "" "my-docker"
                  "mkdir /tmp: read-only file system"
                  (surjective_pairing _) (or_introl eq_refl))).
Defined.

(** X16. When the token endpoint answers with any status other than 200,
    [main] stops there: after the request it only prints the error, which
    reads ["Error getting token: Error getting token: "] and the status
    text, and exits with 1. *)
Theorem token_status_is_reported
  (w : World) (os_Args : list string) (t : Trace) (o : Outcome unit)
  (url : string) (resp : Response) :
  run w os_Args = (t, o) ->
  In (EvGet url (Ok resp)) t ->
  StatusCode resp <> 200%Z ->
  exists tempDir,
    t = [EvMkdirTemp "" "my-docker" (Ok tempDir);
         EvGet url (Ok resp);
         EvPrint ("Error getting token: Error getting token: "
                  ++ Status resp ++ GoString.nl)%string] /\
    o = Exited 1%Z.
Proof.
  intros H Hin Hst.
  exec H; loops; leb_facts; clear_answers; tidy; unfold http_StatusOK in *.
  all: find_in_run Hin.
  all: injection Hin as <- <-; try contradiction.
  eexists. split; [| reflexivity].
  do 3 f_equal. cbn. rewrite append_empty_r. reflexivity.
Qed.

Lemma token_status_is_reported_witness :
  let w := Sample.world 201 Sample.two_layers 200 Sample.tar_ok RunNil in
  exists tempDir,
    fst (run w Sample.argv)
    = [EvMkdirTemp "" "my-docker" (Ok tempDir);
       EvGet (token_url "library/alpine") (Ok (Sample.response 201 0));
       EvPrint ("Error getting token: Error getting token: "
                ++ "201 Created" ++ GoString.nl)%string] /\
    snd (run w Sample.argv) = Exited 1%Z.
Proof.
  intros w.
  apply (token_status_is_reported w Sample.argv).
  - apply surjective_pairing.
  - in_concrete.
  - discriminate.
Defined.

(** Write the trace [exec] and [loops] leave as [pre ++ last_events]. *)
Ltac trace_ends :=
  rewrite <- ?app_assoc; cbn [app]; rewrite ?app_comm_cons, app_assoc.

(** X17. When the root change fails, the cause is printed twice, once by
    [isolateFileSystem] (["Error chrooting: "]) and once by [main]
    (["Error isolating file system: "]); these are the last calls of the
    run, which exits with 1 without unsharing anything or starting the
    command. *)
Theorem chroot_failure_is_reported
  (w : World) (os_Args : list string) (t : Trace) (o : Outcome unit)
  (path : string) (err : error) :
  run w os_Args = (t, o) ->
  In (EvChroot path (Some err)) t ->
  (exists pre,
      t = pre ++ [EvChroot path (Some err);
                  EvPrint ("Error chrooting: " ++ err ++ GoString.nl)%string;
                  EvPrint ("Error isolating file system: " ++ err
                           ++ GoString.nl)%string]) /\
  In (EvMkdirTemp "" "my-docker" (Ok path)) t /\
  filter is_unshare t = [] /\
  filter is_command t = [] /\
  o = Exited 1%Z.
Proof.
  intros H Hin.
  pose proof (run_MainRun _ _ _ _ H) as Hrun.
  assert (Hrest : In (EvMkdirTemp "" "my-docker" (Ok path)) t /\
                  filter is_unshare t = [] /\ filter is_command t = []).
  { destruct Hrun; locate Hin. injection Hin as <- <-.
    split; [left; reflexivity |].
    rewrite !stem_app, !filter_app, stem_no_command by assumption.
    rewrite (filter_none is_command (tar_ok_events _ _))
      by (apply tar_ok_events_quiet; reflexivity).
    split; [| reflexivity].
    rewrite (filter_none is_unshare (tar_ok_events _ _))
      by (apply tar_ok_events_quiet; reflexivity).
    rewrite (filter_none is_unshare (stem _ _ _ _ _ _)); [reflexivity |].
    unfold stem. constructor; [reflexivity |]. apply Forall_app. split.
    - eapply registry_event_quiet; [| eassumption].
      intros e. destruct e; cbn; try contradiction; reflexivity.
    - do 2 (constructor; [reflexivity |]).
      eapply pull_event_quiet; [| eassumption].
      intros e. destruct e; cbn; try contradiction; reflexivity. }
  clear Hrun. destruct Hrest as (Hdir & Hu & Hc).
  exec H; loops; clear_answers; tidy.
  all: find_in_run Hin.
  all: injection Hin as <- <-.
  split; [| repeat split; assumption].
  clear Hdir Hu Hc. trace_ends. eexists. reflexivity.
Qed.

Lemma chroot_failure_is_reported_witness :
  let w := {| w_MkdirTemp := fun _ _ _ => Ok "/tmp/my-docker42";
              w_Get := fun _ _ => Ok (Sample.response 200 0);
              w_NewRequest := fun _ _ => None;
              w_Do := fun _ _ => Ok (Sample.response 200 1);
              w_Decode := fun _ _ =>
                Ok {| Token := "t0k3n"; AccessToken := ""; ExpiresIn := 300;
                      IssuedAt := "" |};
              w_ReadAll := fun _ _ => Ok "{...}";
              w_Unmarshal := fun _ => Ok Sample.two_layers;
              w_Create := fun _ _ => Ok 3%Z;
              w_Copy := fun _ _ _ => Ok 1024%Z;
              w_Run := fun _ _ => RunNil;
              w_Chroot := fun _ _ => Some "operation not permitted";
              w_Unshare := fun _ _ => None |} in
  snd (run w Sample.argv) = Exited 1%Z /\
  filter is_command (fst (run w Sample.argv)) = [].
Proof.
  intros w.
  destruct (chroot_failure_is_reported w Sample.argv
              (fst (run w Sample.argv)) (snd (run w Sample.argv))
              "/tmp/my-docker42" "operation not permitted")
    as (_ & _ & _ & Hc & Ho).
  - apply surjective_pairing.
  - in_concrete.
  - split; assumption.
Defined.

(** X18. When the unshare fails, [isolateProcess] drops the cause: the run
    prints the fixed line ["Error isolating process: Error unshareing"],
    whatever the error was, and exits with 1 without starting the command.
    The unshare was asked for the UTS, PID and mount namespaces, after the
    root change had succeeded. *)
Theorem unshare_failure_hides_cause
  (w : World) (os_Args : list string) (t : Trace) (o : Outcome unit)
  (flags : Z) (err : error) :
  run w os_Args = (t, o) ->
  In (EvUnshare flags (Some err)) t ->
  (exists pre tempDir,
      t = pre ++ [EvChroot tempDir None;
                  EvUnshare flags (Some err);
                  EvPrint ("Error isolating process: Error unshareing"
                           ++ GoString.nl)%string]) /\
  flags = Z.lor (Z.lor CLONE_NEWUTS CLONE_NEWPID) CLONE_NEWNS /\
  filter is_command t = [] /\
  o = Exited 1%Z.
Proof.
  intros H Hin.
  pose proof (run_MainRun _ _ _ _ H) as Hrun.
  assert (Hrest : filter is_command t = []).
  { destruct Hrun; locate Hin.
    rewrite !stem_app, !filter_app, stem_no_command by assumption.
    rewrite (filter_none is_command (tar_ok_events _ _))
      by (apply tar_ok_events_quiet; reflexivity).
    reflexivity. }
  clear Hrun.
  exec H; loops; clear_answers; tidy.
  all: find_in_run Hin.
  all: injection Hin as <- <-.
  split; [| repeat split; assumption].
  clear Hrest. trace_ends. do 2 eexists. reflexivity.
Qed.

Lemma unshare_failure_hides_cause_witness :
  let w := {| w_MkdirTemp := fun _ _ _ => Ok "/tmp/my-docker42";
              w_Get := fun _ _ => Ok (Sample.response 200 0);
              w_NewRequest := fun _ _ => None;
              w_Do := fun _ _ => Ok (Sample.response 200 1);
              w_Decode := fun _ _ =>
                Ok {| Token := "t0k3n"; AccessToken := ""; ExpiresIn := 300;
                      IssuedAt := "" |};
              w_ReadAll := fun _ _ => Ok "{...}";
              w_Unmarshal := fun _ => Ok Sample.two_layers;
              w_Create := fun _ _ => Ok 3%Z;
              w_Copy := fun _ _ _ => Ok 1024%Z;
              w_Run := fun _ _ => RunNil;
              w_Chroot := fun _ _ => None;
              w_Unshare := fun _ _ => Some "operation not permitted" |} in
  last (fst (run w Sample.argv)) (EvPrint "")
  = EvPrint ("Error isolating process: Error unshareing" ++ GoString.nl)%string
  /\ snd (run w Sample.argv) = Exited 1%Z.
Proof.
  intros w.
  destruct (unshare_failure_hides_cause w Sample.argv
              (fst (run w Sample.argv)) (snd (run w Sample.argv))
              unshare_flags "operation not permitted")
    as (_ & _ & _ & Ho).
  - apply surjective_pairing.
  - in_concrete.
  - split; [reflexivity | exact Ho].
Defined.

(** ** The requests of a run *)

Lemma blob_request_mono (token image : string)
  (layers layers' : list Descriptor.t) (e : Event) :
  (forall l, In l layers -> In l layers') ->
  blob_request token image layers e -> blob_request token image layers' e.
Proof.
  intros Hsub. destruct e; cbn; auto.
  intros (l & Hl & H). exists l. auto.
Qed.

Lemma pullLayer_blob_request (token image : string) (l : Descriptor.t)
  (w : World) (h t : Trace) (o : Outcome (result string)) :
  pullLayer token image (Descriptor.Digest l) w h = (t, o) ->
  Forall (blob_request token image [l]) t.
Proof.
  intros H.
  assert (Hreq : forall r,
             blob_request token image [l]
               (EvDo (Header_Set "Authorization"
                        (GoString.Sprintf "Bearer %s" [token])
                        {| Method := "GET";
                           URL := GoString.Sprintf getLayerURL
                                    [image; Descriptor.Digest l];
                           Header := [] |}) r)).
  { intros r. exists l. split; [left; reflexivity |].
    rewrite Sprintf_getLayerURL, Sprintf_Bearer. reflexivity. }
  exec H.
  all: repeat (constructor; [first [exact I | apply Hreq] |]); constructor.
Qed.

Lemma pullLayers_blob_requests (token image : string) (w : World) :
  forall (layers : list Descriptor.t) (names : list string) (h t : Trace)
         (o : Outcome (list string)),
    pullLayers token image layers names w h = (t, o) ->
    Forall (blob_request token image layers) t.
Proof.
  induction layers as [| l layers IH]; intros names h t o H.
  - cbn in H. apply pair_equal_spec in H as [<- _]. constructor.
  - cbn [pullLayers] in H. unfold bind at 1 in H.
    destruct (pullLayer token image (Descriptor.Digest l) w h)
      as [t1 o1] eqn:Hone.
    apply pullLayer_blob_request in Hone.
    assert (Hone' : Forall (blob_request token image (l :: layers)) t1).
    { eapply Forall_impl; [| exact Hone].
      intros e. apply blob_request_mono. cbn. intuition. }
    destruct o1 as [[name | err] | code | p].
    + destruct (pullLayers token image layers (names ++ [name]) w (h ++ t1))
        as [t2 o2] eqn:Hrest.
      apply pair_equal_spec in H as [<- _].
      apply IH in Hrest. apply Forall_app. split; [exact Hone' |].
      eapply Forall_impl; [| exact Hrest].
      intros e. apply blob_request_mono. cbn. auto.
    + exec H. apply Forall_app. split; [exact Hone' | repeat constructor].
    + apply pair_equal_spec in H as [<- _]. exact Hone'.
    + apply pair_equal_spec in H as [<- _]. exact Hone'.
Qed.

(** X19. The requests of a run are those of the image on the command
    line.  With [os.Args[2]] parsed to [(image, tag)], the only URL the
    run ever GETs without a token is the token URL of [library/image];
    every other request is a GET authorized with the token that the token
    endpoint's answer decoded to, and its URL is the manifest URL of
    [image] and [tag] or the blob URL of [image] and the digest of a layer
    of the manifest received. *)
Theorem requests_of_a_run
  (w : World) (os_Args : list string) (t : Trace) (o : Outcome unit)
  (imageName image tag : string) :
  run w os_Args = (t, o) ->
  nth_error os_Args 2 = Some imageName ->
  parseImage imageName = (image, tag) ->
  (forall url r,
      In (EvGet url r) t -> url = token_url ("library/" ++ image)) /\
  (forall req r,
      In (EvDo req r) t ->
      exists body tokenResponse,
        In (EvDecode body (Ok tokenResponse)) t /\
        Method req = "GET" /\
        In ("Authorization", ("Bearer " ++ Token tokenResponse)%string)
          (Header req) /\
        (URL req = manifest_url image tag \/
         exists bytes m l,
           In (EvUnmarshal bytes (Ok m)) t /\
           In l (ManifestResponse.Layers m) /\
           URL req = blob_url image (Descriptor.Digest l))).
Proof.
  intros H. exec H.
  all: try match goal with
         | Hp : pullLayers _ _ _ _ _ _ = _ |- _ =>
             pose proof (pullLayers_blob_requests _ _ _ _ _ _ _ _ Hp) as Hblob
         end.
  all: loops; clear_answers; tidy.
  all: intros Hargs Hparse; try discriminate Hargs.
  all: try (injection Hargs as <-;
            match goal with
            | Hp : parseImage _ = _ |- _ =>
                rewrite Hparse in Hp; injection Hp as <- <-
            end).
  all: split;
    [ intros url r Hin; find_in_run Hin; injection Hin as <- _;
      cbn; rewrite append_empty_r; reflexivity
    | intros req r Hin ].
  all: split_in Hin; try discriminate Hin.
  (* the manifest request *)
  all: try (injection Hin as <- _;
            do 2 eexists; split; [solve [find_event] |];
            split; [reflexivity |];
            split; [right; left; cbn; rewrite append_empty_r; reflexivity |];
            left; cbn; rewrite append_empty_r; reflexivity).
  (* a blob request *)
  all: try (apply In_map_tar in Hin as (? & ? & Hin); discriminate Hin).
  all: match goal with
       | Hb : Forall (blob_request _ _ _) ?t0, Hi : In _ ?t0 |- _ =>
           rewrite Forall_forall in Hb; apply Hb in Hi;
           destruct Hi as (l & Hl & ->)
       end.
  all: do 2 eexists; split; [solve [find_event] |];
    split; [reflexivity |];
    split; [left; reflexivity |];
    right; do 3 eexists; split; [solve [find_event] |];
    split; [eassumption | reflexivity].
Qed.

Lemma requests_of_a_run_witness :
  let w := Sample.world 200 Sample.two_layers 200 Sample.tar_ok RunNil in
  let t := fst (run w Sample.argv) in
  exists body tokenResponse,
    In (EvDecode body (Ok tokenResponse)) t /\
    In ("Authorization", ("Bearer " ++ Token tokenResponse)%string)
      [("Authorization", "Bearer t0k3n")] /\
    In (EvGet (token_url "library/alpine") (Ok (Sample.response 200 0))) t.
Proof.
  intros w t.
  destruct (requests_of_a_run w Sample.argv t (snd (run w Sample.argv))
              "alpine:latest" "alpine" "latest") as [_ Hdo].
  - apply surjective_pairing.
  - reflexivity.
  - reflexivity.
  - destruct (Hdo {| Method := "GET";
                     URL := blob_url "alpine" "sha256:bbbb";
                     Header := [("Authorization", "Bearer t0k3n")] |}
                (Ok (Sample.response 200 2)))
      as (body & tokenResponse & Hdec & _ & Hauth & _).
    + in_concrete.
    + exists body, tokenResponse.
      split; [exact Hdec |]. split; [exact Hauth |]. in_concrete.
Defined.

(** * The earlier stage *)

(** Unfold the stage's program in [H : f w h = (t, o)] and split on every
    answer of the world. *)
Ltac exec_stage H :=
  repeat (cbv beta iota zeta delta
            [Stage.run Stage.main Stage.isolateFileSystem
             Stage.isolateFileSystemWithBinary
             Stage.bind Stage.defer Stage.ret Stage.os_Exit Stage.panic
             Stage.filepath_Join Stage.filepath_Dir Stage.ioutil_TempDir
             Stage.os_MkdirAll Stage.os_Open Stage.os_Create
             Stage.File_Chmod Stage.io_Copy Stage.File_Close
             Stage.syscall_Chroot Stage.os_RemoveAll Stage.cmd_Run
             Stage.fmt_Printf fst snd] in H;
          cbn [app] in H;
          first [ destruct_scrutinee H
                | match type of H with
                  | (_, _) = (_, _) =>
                      apply pair_equal_spec in H; destruct H; subst
                  end ]).

(** X20. [isolateFileSystemWithBinary] changes root only after the copy of
    the binary is complete.  When its trace has a change of root, that is
    of [tempDir], and the whole trace is: the parent directory of the
    destination made with mode 0600, the binary opened, the destination
    created, made 0100 and filled from the binary, each without error; then
    the change of root, the line about it if it failed; then the
    destination closed and the binary closed.  The answer of the change of
    root is what the function returns. *)
Theorem chroot_follows_the_copy
  (w : Stage.World) (h t : Stage.Trace) (o : Outcome (option error))
  (tempDir binaryPath path : string) (r : option error) :
  Stage.isolateFileSystemWithBinary tempDir binaryPath w h = (t, o) ->
  In (Stage.EvChroot path r) t ->
  path = tempDir /\
  (exists src dst n,
      t = Stage.copied w tempDir binaryPath src dst n
          ++ Stage.chrooted w tempDir binaryPath src dst r) /\
  o = Done r.
Proof.
  intros H Hin. exec_stage H.
  all: split_in Hin; try discriminate Hin.
  all: injection Hin as <- <-.
  all: split; [reflexivity |]; split; [| reflexivity].
  all: do 3 eexists; reflexivity.
Qed.

Lemma chroot_follows_the_copy_witness :
  let w := Stage.sample (Some "operation not permitted") RunNil in
  snd (Stage.isolateFileSystemWithBinary "/tmp/d" "/bin/echo" w [])
  = Done (Some "operation not permitted").
Proof.
  intros w.
  refine (proj2 (proj2 (chroot_follows_the_copy w []
                          (fst (Stage.isolateFileSystemWithBinary
                                  "/tmp/d" "/bin/echo" w []))
                          _ "/tmp/d" "/bin/echo" "/tmp/d"
                          (Some "operation not permitted") _ _))).
  - apply surjective_pairing.
  - vm_compute. repeat (try (left; reflexivity); right).
Defined.

(** X21. [isolateFileSystemWithBinary] closes what it opens.  On every
    path its trace is a body that closes nothing, followed by the close of
    each file the body opened or created, the last opened first; so the
    closed files are the opened ones in reverse order, and nothing happens
    after the first close but closes. *)
Theorem opened_files_are_closed
  (w : Stage.World) (h t : Stage.Trace) (o : Outcome (option error))
  (tempDir binaryPath : string) :
  Stage.isolateFileSystemWithBinary tempDir binaryPath w h = (t, o) ->
  (exists body,
      t = body ++ map Stage.EvFileClose (rev (Stage.opened body)) /\
      Stage.closed body = []) /\
  Stage.closed t = rev (Stage.opened t).
Proof.
  intros H. exec_stage H.
  all: split; [| reflexivity].
  all: match goal with
       | |- exists body, ?t = _ /\ _ =>
           exists (filter (fun e => match e with
                                    | Stage.EvFileClose _ => false
                                    | _ => true
                                    end) t)
       end.
  all: split; reflexivity.
Qed.

(** X22. [isolateFileSystemWithBinary] always returns, and it reports what
    it returns.  It never exits and never panics.  When it returns an
    error it has printed exactly one line, a description of the failed
    step followed by that error; when it returns [nil] it has printed
    nothing and the change of root into [tempDir] has succeeded. *)
Theorem copy_errors_are_printed_once
  (w : Stage.World) (h t : Stage.Trace) (o : Outcome (option error))
  (tempDir binaryPath : string) :
  Stage.isolateFileSystemWithBinary tempDir binaryPath w h = (t, o) ->
  exists r,
    o = Done r /\
    match r with
    | Some e => exists what, filter Stage.is_print t = [Stage.report what e]
    | None => filter Stage.is_print t = [] /\
              In (Stage.EvChroot tempDir None) t
    end.
Proof.
  intros H. exec_stage H.
  all: eexists; split; [reflexivity |]; cbn beta iota.
  all: try (first
              [ exists "Error creating directory: "; reflexivity
              | exists "Error opening binary: "; reflexivity
              | exists "Error creating binary: "; reflexivity
              | exists "Error setting permissions: "; reflexivity
              | exists "Error copying binary: "; reflexivity
              | exists "Error chrooting: "; reflexivity ]).
  split; [reflexivity |]. find_event.
Qed.

Lemma opened_files_are_closed_witness :
  let w := Stage.sample None RunNil in
  Stage.closed (fst (Stage.isolateFileSystemWithBinary
                       "/tmp/d" "/bin/echo" w []))
  = [ {| Name := "/tmp/d/bin/echo"; Fd := 4 |};
      {| Name := "/bin/echo"; Fd := 3 |} ].
Proof.
  intros w.
  refine (eq_trans
            (proj2 (opened_files_are_closed w []
                      (fst (Stage.isolateFileSystemWithBinary
                              "/tmp/d" "/bin/echo" w []))
                      (snd (Stage.isolateFileSystemWithBinary
                              "/tmp/d" "/bin/echo" w []))
                      "/tmp/d" "/bin/echo" _))
            _).
  - apply surjective_pairing.
  - reflexivity.
Defined.

Lemma copy_errors_are_printed_once_witness :
  let w := Stage.sample (Some "operation not permitted") RunNil in
  exists r,
    snd (Stage.isolateFileSystemWithBinary "/tmp/d" "/bin/echo" w [])
    = Done r.
Proof.
  intros w.
  destruct (copy_errors_are_printed_once w []
              (fst (Stage.isolateFileSystemWithBinary
                      "/tmp/d" "/bin/echo" w []))
              (snd (Stage.isolateFileSystemWithBinary
                      "/tmp/d" "/bin/echo" w []))
              "/tmp/d" "/bin/echo") as (r & Ho & _).
  - apply surjective_pairing.
  - exists r. exact Ho.
Defined.

(** ** [part_000] *)

Lemma isolateFileSystemWithBinary_returns
  (w : Stage.World) (h t : Stage.Trace) (o : Outcome (option error))
  (tempDir binaryPath : string) :
  Stage.isolateFileSystemWithBinary tempDir binaryPath w h = (t, o) ->
  exists r, o = Done r.
Proof. intros H. exec_stage H. all: eexists; reflexivity. Qed.

Lemma isolateFileSystem_unfold (binaryPath : string) :
  Stage.isolateFileSystem binaryPath
  = Stage.bind (Stage.ioutil_TempDir "" "my-docker")
      (fun r =>
         match r with
         | Err e =>
             Stage.bind
               (Stage.fmt_Printf
                  ("Error creating temporary directory: %v" ++ GoString.nl)
                  [e])
               (fun _ => Stage.ret (Some e))
         | Ok tempDir =>
             Stage.defer (Stage.os_RemoveAll tempDir)
               (Stage.isolateFileSystemWithBinary tempDir binaryPath)
         end).
Proof. reflexivity. Qed.

(** X23. The [isolateFileSystem] of [part_000] is the
    [isolateFileSystemWithBinary] of [main.go] between the creation of the
    temporary directory and its removal.  Where [ioutil.TempDir] gives
    [tempDir], the earlier function does what the later one does for
    [tempDir] and the same binary, returns what it returns, and then removes
    [tempDir], whatever was returned. *)
Theorem earlier_isolation_wraps_the_copy
  (w : Stage.World) (h t : Stage.Trace) (o : Outcome (option error))
  (binaryPath tempDir : string) :
  Stage.w_TempDir w h "" "my-docker" = Ok tempDir ->
  Stage.isolateFileSystemWithBinary tempDir binaryPath w
    (h ++ [Stage.EvTempDir "" "my-docker" (Ok tempDir)]) = (t, o) ->
  Stage.isolateFileSystem binaryPath w h
  = (Stage.EvTempDir "" "my-docker" (Ok tempDir) :: t
     ++ [Stage.EvRemoveAll tempDir], o).
Proof.
  intros Htemp H. rewrite isolateFileSystem_unfold.
  destruct (isolateFileSystemWithBinary_returns _ _ _ _ _ _ H) as [r ->].
  unfold Stage.bind at 1, Stage.ioutil_TempDir. rewrite Htemp.
  unfold Stage.defer. rewrite H. reflexivity.
Qed.

Lemma earlier_isolation_wraps_the_copy_witness :
  let w := Stage.sample None RunNil in
  last (fst (Stage.isolateFileSystem "/bin/echo" w []))
    (Stage.EvPrint "")
  = Stage.EvRemoveAll "/tmp/my-docker7".
Proof.
  intros w.
  rewrite (earlier_isolation_wraps_the_copy w []
             (fst (Stage.isolateFileSystemWithBinary "/tmp/my-docker7"
                     "/bin/echo" w
                     [Stage.EvTempDir "" "my-docker" (Ok "/tmp/my-docker7")]))
             (snd (Stage.isolateFileSystemWithBinary "/tmp/my-docker7"
                     "/bin/echo" w
                     [Stage.EvTempDir "" "my-docker" (Ok "/tmp/my-docker7")]))
             "/bin/echo" "/tmp/my-docker7").
  - reflexivity.
  - reflexivity.
  - apply surjective_pairing.
Defined.

(** X24. A run of [part_000] that starts the command, call by call.  It
    has at least four arguments; it made the temporary directory, copied
    [os.Args[3]] into it, changed root to it without error and closed both
    files; then, [isolateFileSystem] returning, the deferred
    [os.RemoveAll] was called with the path of the temporary directory;
    only then was the command started, which is [os.Args[3]] with the
    arguments after it and the three standard streams.  So the call of
    [os.RemoveAll] comes after the change of root and before the command,
    not at the end of the run; what the call finds under that path once the
    root has changed is not part of the trace.  Nothing follows the command
    but [Err: ] and the error when it could not be run, and the run ends as
    the command did: by returning when it exited with 0, with its exit code
    when that was not 0, with 1 when it could not be run. *)
Theorem stage_command_is_started_last
  (w : Stage.World) (os_Args : list string) (t : Stage.Trace)
  (o : Outcome unit) (cmd : Cmd) (r : RunResult) :
  Stage.run w os_Args = (t, o) ->
  In (Stage.EvRun cmd r) t ->
  exists command tempDir src dst n,
    nth_error os_Args 3 = Some command /\
    cmd = user_Command command (skipn 4 os_Args) /\
    t = Stage.EvTempDir "" "my-docker" (Ok tempDir)
        :: Stage.copied w tempDir command src dst n
        ++ Stage.chrooted w tempDir command src dst None
        ++ [Stage.EvRemoveAll tempDir; Stage.EvRun cmd r]
        ++ match r with
           | RunOtherError err => [Stage.EvPrint ("Err: " ++ err)]
           | _ => []
           end /\
    o = match r with
        | RunNil => Done tt
        | RunExitError ExitCode _ => Exited ExitCode
        | RunOtherError _ => Exited 1%Z
        end.
Proof.
  intros H Hin. exec_stage H.
  all: split_in Hin; try discriminate Hin.
  all: injection Hin as <- <-.
  all: do 5 eexists; split; [reflexivity |]; split; [reflexivity |].
  all: split; [| reflexivity].
  all: rewrite ?Sprintf_Err; reflexivity.
Qed.

Lemma stage_command_is_started_last_witness :
  let w := Stage.sample None (RunExitError 3 "exit status 3") in
  snd (Stage.run w Stage.argv) = Exited 3%Z.
Proof.
  intros w.
  destruct (stage_command_is_started_last w Stage.argv
              (fst (Stage.run w Stage.argv)) (snd (Stage.run w Stage.argv))
              (user_Command "/bin/echo" ["hello"])
              (RunExitError 3 "exit status 3"))
    as (_ & _ & _ & _ & _ & _ & _ & _ & Ho).
  - apply surjective_pairing.
  - vm_compute. repeat (try (left; reflexivity); right).
  - exact Ho.
Defined.

(** Name the step that failed, and find its line in the trace. *)
Ltac failed_step what :=
  exists what; eexists; split; [reflexivity |];
  split; [solve [cbn [removelast]; find_event] |].

(** X25. A run of [part_000] that does not start the command: either
    there are fewer than four arguments, and it panics on [os.Args[3]]
    before doing anything; or the isolation failed, and then its error was
    printed by the failed step, the last line printed is
    ["Error isolating file system: "] with that error, the run exits with
    1, and a temporary directory that was made has been removed before
    that line: here the deferred removal is inside the function that
    returned, so the exit does not skip it. *)
Theorem stage_failure_removes_and_exits
  (w : Stage.World) (os_Args : list string) (t : Stage.Trace)
  (o : Outcome unit) :
  Stage.run w os_Args = (t, o) ->
  filter Stage.is_command t = [] ->
  (List.length os_Args < 4 /\ t = [] /\
   o = Panicked (IndexOutOfRange 3 (List.length os_Args))) \/
  (4 <= List.length os_Args /\
   exists pre what e,
     t = pre ++ [Stage.report "Error isolating file system: " e] /\
     In (Stage.report what e) pre /\
     (forall dir pattern path,
         In (Stage.EvTempDir dir pattern (Ok path)) t ->
         In (Stage.EvRemoveAll path) pre) /\
     o = Exited 1%Z).
Proof.
  intros H Hcmd.
  destruct (nth_error os_Args 3) as [command |] eqn:Hargs.
  - right. split.
    { assert (3 < List.length os_Args)
        by (apply nth_error_Some; rewrite Hargs; discriminate).
      lia. }
    unfold Stage.run, Stage.main in H. rewrite Hargs in H.
    exec_stage H; try discriminate Hcmd.
    all: match goal with
         | |- context [Stage.EvPrint
                         (GoString.Sprintf ("Error isolating file system: %v"
                                            ++ GoString.nl) [?e])] =>
             match goal with
             | |- exists pre what e', ?a :: ?l = _ /\ _ =>
                 exists (removelast (a :: l))
             end
         end.
    all: first
           [ failed_step "Error creating temporary directory: "
           | failed_step "Error creating directory: "
           | failed_step "Error opening binary: "
           | failed_step "Error creating binary: "
           | failed_step "Error setting permissions: "
           | failed_step "Error copying binary: "
           | failed_step "Error chrooting: " ].
    all: split; [| reflexivity].
    all: intros dir pattern path Hin; split_in Hin; try discriminate Hin;
      injection Hin as _ _ <-; cbn; find_event.
  - left. split; [apply nth_error_None in Hargs; lia |].
    unfold Stage.run, Stage.main in H. rewrite Hargs in H.
    apply pair_equal_spec in H as [<- <-]. split; reflexivity.
Qed.

Lemma stage_failure_removes_and_exits_witness :
  let w := Stage.sample (Some "operation not permitted") RunNil in
  snd (Stage.run w Stage.argv) = Exited 1%Z.
Proof.
  intros w.
  destruct (stage_failure_removes_and_exits w Stage.argv
              (fst (Stage.run w Stage.argv)) (snd (Stage.run w Stage.argv)))
    as [(Hlen & _) | (_ & _ & _ & _ & _ & _ & _ & Ho)].
  - apply surjective_pairing.
  - reflexivity.
  - exfalso. vm_compute in Hlen. lia.
  - exact Ho.
Defined.
